(** * awesome-directories CLI: the local cache and query engine

    A shallow embedding of [internal/cache] (the [Cache] type with
    [GetDirectories], [Sync], [FilterDirectories], [sortDirectories],
    [isCacheValid], [loadFromCache], [saveToCache], [loadMetadata],
    [saveMetadata]) and of the two structs of [pkg/models] it works on,
    followed by the properties of the design document that concern them.

    Conventions of the embedding:
    - Go's [int] is a 64-bit two's complement integer: values are [Z],
      and the one addition the engine performs ([start + Limit]) wraps.
    - Go strings are byte sequences: [string].
    - [time.Time] is an instant counted in nanoseconds, [time.Duration]
      a 64-bit count of nanoseconds; [Time.Sub] saturates.
    - a nil and an empty slice are both the empty list.
    - a run-time panic (slice bounds out of range) is the outcome
      [Panics]; an [error] value is a term of type [error].
    - the file system, the clock and the remote service make up the
      [World] every method of [Cache] reads and updates. *)

From Stdlib Require Import ZArith String Ascii List Bool Lia DecimalString.
From stdpp Require Import gmap strings list fin_maps.
From Ceres Require CeresS CeresParser CeresFormat CeresString.
Import ListNotations.

Local Open Scope string_scope.
Local Open Scope Z_scope.

#[local] Set Warnings "-register-all".

(** ** Go's [int] *)

Module GoInt.

Definition MaxInt : Z := 2 ^ 63 - 1.
Definition MinInt : Z := - 2 ^ 63.

(** Two's complement wrap-around of a mathematical integer. *)
Definition wrap (z : Z) : Z := (z + 2 ^ 63) mod 2 ^ 64 - 2 ^ 63.

(** [a + b] on [int]. *)
Definition add (a b : Z) : Z := wrap (a + b).

Definition in_range (z : Z) : Prop := MinInt <= z <= MaxInt.

End GoInt.

(** ** Outcomes of a function that may panic *)

Inductive outcome (A : Type) : Type :=
| Returns (a : A)
| Panics.
Arguments Returns {A} a.
Arguments Panics {A}.

(** [len(s)] as an [int]. *)
Definition len {A} (s : list A) : Z := Z.of_nat (length s).

(** The slice expression [s[lo:hi]].  Go checks [0 <= lo <= hi <= cap(s)];
    the embedding has no spare capacity, so the last check is against
    [len(s)].  In [FilterDirectories] the upper index is at most
    [len(s)] whenever it is not negative, so both checks agree there. *)
Definition slice {A} (s : list A) (lo hi : Z) : outcome (list A) :=
  if (0 <=? lo) && (lo <=? hi) && (hi <=? len s)
  then Returns (firstn (Z.to_nat (hi - lo)) (skipn (Z.to_nat lo) s))
  else Panics.

(** ** pkg/models *)

Definition Time : Type := Z.
Definition Duration : Type := Z.

Module Directory.

Record t : Type := Build {
  ID : string;
  Slug : string;
  Name : string;
  URL : string;
  Description : string;
  Categories : list string;
  Pricing : string;
  LinkType : string;
  DomainRating : Z;
  OrganicTraffic : Z;
  OrganicKeywords : Z;
  HelpfulCount : Z;
  ViewCount : Z;
  SubmissionURL : string;
  IsAffiliate : bool;
  AffiliateURL : string;
  IsActive : bool;
  CreatedAt : Time;
  UpdatedAt : Time
}.

End Directory.

Module FilterOptions.

Record t : Type := Build {
  Query : string;
  Categories : list string;
  Pricing : list string;
  LinkType : list string;
  DRMin : Z;
  DRMax : Z;
  SortBy : string;
  Limit : Z;
  Offset : Z
}.

(** The zero value [FilterOptions{}]. *)
Definition zero : t := Build "" [] [] [] 0 0 "" 0 0.

(** [o] with [DRMin] and [DRMax] replaced. *)
Definition with_bounds (o : t) (lo hi : Z) : t :=
  Build (Query o) (Categories o) (Pricing o) (LinkType o) lo hi
        (SortBy o) (Limit o) (Offset o).

(** [o] with [Limit] and [Offset] replaced. *)
Definition with_page (o : t) (limit offset : Z) : t :=
  Build (Query o) (Categories o) (Pricing o) (LinkType o) (DRMin o) (DRMax o)
        (SortBy o) limit offset.

(** [o] with [SortBy] replaced. *)
Definition with_sort (o : t) (key : string) : t :=
  Build (Query o) (Categories o) (Pricing o) (LinkType o) (DRMin o) (DRMax o)
        key (Limit o) (Offset o).

End FilterOptions.

Definition SortMostHelpful : string := "helpful".
Definition SortHighestDR : string := "dr".
Definition SortNewest : string := "newest".
Definition SortAlpha : string := "alpha".

(** ** The functions of package [strings] the filter calls *)

Module Strings.

Fixpoint HasPrefix (s prefix : string) : bool :=
  match prefix, s with
  | EmptyString, _ => true
  | String p prefix', String c s' => Ascii.eqb p c && HasPrefix s' prefix'
  | String _ _, EmptyString => false
  end.

(** [strings.Contains]: [substr] occurs in [s] as a run of bytes. *)
Fixpoint Contains (s substr : string) : bool :=
  HasPrefix s substr ||
  match s with
  | EmptyString => false
  | String _ s' => Contains s' substr
  end.

(** [strings.ToLower] and [strings.EqualFold] follow the Unicode case
    tables, which are no part of this repository: the engine is
    verified for any pair of functions. *)
Class CaseFolding : Type := {
  ToLower : string -> string;
  EqualFold : string -> string -> bool
}.

(** The two functions on ASCII text, where they coincide with Go's. *)
Definition lower_ascii (c : ascii) : ascii :=
  let n := nat_of_ascii c in
  if (Nat.leb 65 n && Nat.leb n 90)%bool then ascii_of_nat (n + 32) else c.

Fixpoint ascii_ToLower (s : string) : string :=
  match s with
  | EmptyString => EmptyString
  | String c s' => String (lower_ascii c) (ascii_ToLower s')
  end.

Definition ascii_EqualFold (s u : string) : bool :=
  String.eqb (ascii_ToLower s) (ascii_ToLower u).

Definition ascii_folding : CaseFolding :=
  {| ToLower := ascii_ToLower; EqualFold := ascii_EqualFold |}.

(** [len(s)] of a string, as an [int]. *)
Definition strlen (s : string) : Z := Z.of_nat (String.length s).

(** [strings.Join(elems, sep)]. *)
Fixpoint Join (elems : list string) (sep : string) : string :=
  match elems with
  | [] => ""
  | [a] => a
  | a :: rest => (a ++ sep ++ Join rest sep)%string
  end.

(** The first [n] bytes of [s] (all of it when it is shorter). *)
Fixpoint take (n : nat) (s : string) : string :=
  match n, s with
  | O, _ => EmptyString
  | S _, EmptyString => EmptyString
  | S n', String c s' => String c (take n' s')
  end.

(** The slice expression [s[:hi]] on a string: Go checks
    [0 <= hi <= len(s)]. *)
Definition upto (s : string) (hi : Z) : outcome string :=
  if (0 <=? hi) && (hi <=? strlen s) then Returns (take (Z.to_nat hi) s)
  else Panics.

End Strings.

(** [strconv.Itoa], also the verb [%d] of [fmt]: the decimal numeral. *)
Definition Itoa (i : Z) : string := NilZero.string_of_int (Z.to_int i).

(** ** internal/cache: the filter, sort and pagination pass *)

Section FilterEngine.

Context {folding : Strings.CaseFolding}.

(** The loop over [dir.Categories] for one requested [cat]; it leaves
    with [hasCategory = true] at the first match. *)
Fixpoint hasCategory_in (cat : string) (dirCats : list string) : bool :=
  match dirCats with
  | [] => false
  | dirCat :: rest =>
      if Strings.EqualFold cat dirCat then true else hasCategory_in cat rest
  end.

(** The loop over [options.Categories]. *)
Fixpoint hasCategory (cats dirCats : list string) : bool :=
  match cats with
  | [] => false
  | cat :: rest =>
      if hasCategory_in cat dirCats then true else hasCategory rest dirCats
  end.

(** The loops over [options.Pricing] and [options.LinkType] against the
    record's single label. *)
Fixpoint hasLabel (wanted : list string) (label : string) : bool :=
  match wanted with
  | [] => false
  | w :: rest => if Strings.EqualFold w label then true else hasLabel rest label
  end.

(** One iteration of [for _, dir := range directories]: every
    [continue] leaves [filtered] as it is, the last statement appends. *)
Definition filterStep (options : FilterOptions.t)
    (filtered : list Directory.t) (dir : Directory.t) : list Directory.t :=
  if negb (Directory.IsActive dir) then filtered
  else if negb (String.eqb (FilterOptions.Query options) "")
       && (let query := Strings.ToLower (FilterOptions.Query options) in
           let name := Strings.ToLower (Directory.Name dir) in
           let desc := Strings.ToLower (Directory.Description dir) in
           negb (Strings.Contains name query) && negb (Strings.Contains desc query))
  then filtered
  else if (0 <? len (FilterOptions.Categories options))
       && negb (hasCategory (FilterOptions.Categories options) (Directory.Categories dir))
  then filtered
  else if (0 <? len (FilterOptions.Pricing options))
       && negb (hasLabel (FilterOptions.Pricing options) (Directory.Pricing dir))
  then filtered
  else if (0 <? len (FilterOptions.LinkType options))
       && negb (hasLabel (FilterOptions.LinkType options) (Directory.LinkType dir))
  then filtered
  else if (0 <? FilterOptions.DRMin options) && (0 <? Directory.DomainRating dir)
       && (Directory.DomainRating dir <? FilterOptions.DRMin options)
  then filtered
  else if (0 <? FilterOptions.DRMax options) && (0 <? Directory.DomainRating dir)
       && (FilterOptions.DRMax options <? Directory.DomainRating dir)
  then filtered
  else filtered ++ [dir].

(** The value of [filtered] when the loop is left. *)
Definition filterLoop (options : FilterOptions.t)
    (directories : list Directory.t) : list Directory.t :=
  fold_left (filterStep options) directories [].

(** [sortDirectories] has an empty body: the slice it is handed is
    left as it is. *)
Definition sortDirectories (directories : list Directory.t) (sortBy : string)
  : list Directory.t :=
  directories.

(** [FilterDirectories]; [options == nil] is [None]. *)
Definition FilterDirectories (directories : list Directory.t)
    (options : option FilterOptions.t) : outcome (list Directory.t) :=
  match options with
  | None => Returns directories
  | Some options =>
      let filtered := filterLoop options directories in
      let filtered := sortDirectories filtered (FilterOptions.SortBy options) in
      if 0 <? FilterOptions.Limit options then
        let start := FilterOptions.Offset options in
        let end_ := GoInt.add start (FilterOptions.Limit options) in
        if len filtered <=? start then Returns []
        else
          let end_ := if len filtered <? end_ then len filtered else end_ in
          slice filtered start end_
      else Returns filtered
  end.

End FilterEngine.

(** ** Errors *)

Inductive error : Type :=
| ErrNotExist (path : string)
| ErrPermission (path : string)
| ErrSyntax
| ErrRemote (msg : string)
| Wrapped (msg : string) (cause : error).

Inductive result (A : Type) : Type :=
| Ok (a : A)
| Err (e : error).
Arguments Ok {A} a.
Arguments Err {A} e.

Definition bind {A B} (r : result A) (k : A -> result B) : result B :=
  match r with
  | Ok a => k a
  | Err e => Err e
  end.

Notation "x <- r ;; k" := (bind r (fun x => k))
  (at level 100, r at next level, right associativity).

(** [fmt.Errorf("msg: %w", err)] on the error branch of a call. *)
Definition wrapErr {A} (msg : string) (r : result A) : result A :=
  match r with
  | Ok a => Ok a
  | Err e => Err (Wrapped msg e)
  end.

Definition mapM {A B} (f : A -> result B) : list A -> result (list B) :=
  fix go (l : list A) : result (list B) :=
    match l with
    | [] => Ok []
    | a :: l' => b <- f a ;; bs <- go l' ;; Ok (b :: bs)
    end.

(** ** The JSON encoding of the two persisted types *)

Module JSON.

(** A JSON document. *)
Inductive value : Type :=
| Null
| Bool (b : bool)
| Number (z : Z)
| Str (s : string)
| Array (elements : list value)
| Object (members : list (string * value)).

(** What the JSON library and [time.Time] contribute and this
    repository does not define: the printer behind
    [json.MarshalIndent(v, "", "  ")], the parser behind
    [json.Unmarshal], and the text form of a [time.Time]. *)
Class Library : Type := {
  render : value -> string;
  parse : string -> result value;
  Time_MarshalJSON : Time -> result string;
  Time_UnmarshalJSON : string -> result Time
}.

(** The member read for a struct field: the last one carrying the
    field's tag. *)
Fixpoint member (key : string) (members : list (string * value)) : option value :=
  match members with
  | [] => None
  | (k, v) :: rest =>
      match member key rest with
      | Some v' => Some v'
      | None => if String.eqb k key then Some v else None
      end
  end.

(** Decoding into a field of each Go type; an absent member and
    [null] leave the zero value. *)
Definition as_string (o : option value) : result string :=
  match o with
  | None | Some Null => Ok ""
  | Some (Str s) => Ok s
  | Some _ => Err ErrSyntax
  end.

Definition as_int (o : option value) : result Z :=
  match o with
  | None | Some Null => Ok 0
  | Some (Number z) => Ok z
  | Some _ => Err ErrSyntax
  end.

Definition as_bool (o : option value) : result bool :=
  match o with
  | None | Some Null => Ok false
  | Some (Bool b) => Ok b
  | Some _ => Err ErrSyntax
  end.

Definition as_strings (o : option value) : result (list string) :=
  match o with
  | None | Some Null => Ok []
  | Some (Array l) => mapM (fun v => as_string (Some v)) l
  | Some _ => Err ErrSyntax
  end.

Section Encoding.

Context {lib : Library}.

Definition as_time (o : option value) : result Time :=
  match o with
  | None | Some Null => Ok 0
  | Some (Str s) => Time_UnmarshalJSON s
  | Some _ => Err ErrSyntax
  end.

(** [models.Directory], member names from the struct tags. *)
Definition of_Directory (d : Directory.t) : result value :=
  created <- Time_MarshalJSON (Directory.CreatedAt d) ;;
  updated <- Time_MarshalJSON (Directory.UpdatedAt d) ;;
  Ok (Object
    [ ("id", Str (Directory.ID d));
      ("slug", Str (Directory.Slug d));
      ("name", Str (Directory.Name d));
      ("url", Str (Directory.URL d));
      ("description", Str (Directory.Description d));
      ("categories", Array (map Str (Directory.Categories d)));
      ("pricing", Str (Directory.Pricing d));
      ("link_type", Str (Directory.LinkType d));
      ("domain_rating", Number (Directory.DomainRating d));
      ("organic_traffic", Number (Directory.OrganicTraffic d));
      ("organic_keywords", Number (Directory.OrganicKeywords d));
      ("helpful_count", Number (Directory.HelpfulCount d));
      ("view_count", Number (Directory.ViewCount d));
      ("submission_url", Str (Directory.SubmissionURL d));
      ("is_affiliate", Bool (Directory.IsAffiliate d));
      ("affiliate_url", Str (Directory.AffiliateURL d));
      ("is_active", Bool (Directory.IsActive d));
      ("created_at", Str created);
      ("updated_at", Str updated) ]).

Definition to_Directory (v : value) : result Directory.t :=
  match v with
  | Object ms =>
      id <- as_string (member "id" ms) ;;
      slug <- as_string (member "slug" ms) ;;
      name <- as_string (member "name" ms) ;;
      url <- as_string (member "url" ms) ;;
      description <- as_string (member "description" ms) ;;
      categories <- as_strings (member "categories" ms) ;;
      pricing <- as_string (member "pricing" ms) ;;
      link_type <- as_string (member "link_type" ms) ;;
      domain_rating <- as_int (member "domain_rating" ms) ;;
      organic_traffic <- as_int (member "organic_traffic" ms) ;;
      organic_keywords <- as_int (member "organic_keywords" ms) ;;
      helpful_count <- as_int (member "helpful_count" ms) ;;
      view_count <- as_int (member "view_count" ms) ;;
      submission_url <- as_string (member "submission_url" ms) ;;
      is_affiliate <- as_bool (member "is_affiliate" ms) ;;
      affiliate_url <- as_string (member "affiliate_url" ms) ;;
      is_active <- as_bool (member "is_active" ms) ;;
      created_at <- as_time (member "created_at" ms) ;;
      updated_at <- as_time (member "updated_at" ms) ;;
      Ok (Directory.Build id slug name url description categories pricing
            link_type domain_rating organic_traffic organic_keywords
            helpful_count view_count submission_url is_affiliate
            affiliate_url is_active created_at updated_at)
  | _ => Err ErrSyntax
  end.

(** [[]models.Directory]. *)
Definition of_Directories (ds : list Directory.t) : result value :=
  vs <- mapM of_Directory ds ;; Ok (Array vs).

Definition to_Directories (v : value) : result (list Directory.t) :=
  match v with
  | Null => Ok []
  | Array vs => mapM to_Directory vs
  | _ => Err ErrSyntax
  end.

(** The two things the round trip of a collection asks of the
    library: the text of each of its timestamps reads back as the
    timestamp, and the text of its document parses back to the
    document. *)
Definition time_reads_back (t : Time) : Prop :=
  forall s : string, Time_MarshalJSON t = Ok s -> Time_UnmarshalJSON s = Ok t.


End Encoding.

End JSON.

(** ** internal/config: the fields of [Config] *)

Module config.

Record Config : Type := Build {
  SupabaseURL : string;
  SupabaseAnonKey : string;
  AuthToken : string;
  CacheDir : string;
  CacheTTL : Duration;
  Debug : bool;
  NoColor : bool
}.

End config.

(** ** The world a command runs in *)

Record World : Type := MkWorld {
  files : gmap string string;          (* the regular files: path to content *)
  readonly : gset string;              (* paths the process may not create or write *)
  now : Time;                          (* the wall clock *)
  remote : result (list Directory.t);  (* the answer of the remote service *)
  writes : list string                 (* paths written so far, oldest first *)
}.

(** [t.Sub(u)]: the difference as a [Duration], saturated at the bounds
    of a 64-bit integer. *)
Definition Time_Sub (t u : Time) : Duration :=
  Z.max GoInt.MinInt (Z.min GoInt.MaxInt (t - u)).

(** [time.Since(t)]. *)
Definition time_Since (w : World) (t : Time) : Duration := Time_Sub (now w) t.

Module os.

Definition ReadFile (name : string) (w : World) : result string :=
  match files w !! name with
  | Some data => Ok data
  | None => Err (ErrNotExist name)
  end.

(** A refused write leaves the file as it was. *)
Definition WriteFile (name data : string) (w : World) : option error * World :=
  if decide (name ∈ readonly w) then (Some (ErrPermission name), w)
  else (None, MkWorld (<[name := data]> (files w)) (readonly w) (now w)
                (remote w) (writes w ++ [name])).

(** Directories are not tracked: creating one either is refused or
    changes nothing the cache can observe. *)
Definition MkdirAll (path : string) (w : World) : option error :=
  if decide (path ∈ readonly w) then Some (ErrPermission path) else None.

Definition Stat (name : string) (w : World) : option error :=
  match files w !! name with
  | Some _ => None
  | None => Some (ErrNotExist name)
  end.

Definition IsNotExist (err : option error) : bool :=
  match err with
  | Some (ErrNotExist _) => true
  | _ => false
  end.

(** [os.Remove]: a missing file is reported as such; a file under a
    protected path stays. *)
Definition Remove (name : string) (w : World) : option error * World :=
  match files w !! name with
  | None => (Some (ErrNotExist name), w)
  | Some _ =>
      if decide (name ∈ readonly w) then (Some (ErrPermission name), w)
      else (None, MkWorld (delete name (files w)) (readonly w) (now w)
                    (remote w) (writes w))
  end.

End os.

(** ** internal/cache: the persisted store and the fetch orchestration *)

Module CacheMetadata.

Record t : Type := Build {
  LastUpdated : Time;
  Version : string;
  Count : Z
}.

End CacheMetadata.

Record Cache : Type := MkCache {
  cfg : config.Config;
  cacheFile : string;   (* [CacheDir]/directories.json *)
  metaFile : string     (* [CacheDir]/metadata.json *)
}.

Section Store.

Context {lib : JSON.Library}.

(** [CacheMetadata], member names from the struct tags. *)
Definition of_CacheMetadata (m : CacheMetadata.t) : result JSON.value :=
  updated <- JSON.Time_MarshalJSON (CacheMetadata.LastUpdated m) ;;
  Ok (JSON.Object
    [ ("last_updated", JSON.Str updated);
      ("version", JSON.Str (CacheMetadata.Version m));
      ("count", JSON.Number (CacheMetadata.Count m)) ]).

Definition to_CacheMetadata (v : JSON.value) : result CacheMetadata.t :=
  match v with
  | JSON.Object ms =>
      last_updated <- JSON.as_time (JSON.member "last_updated" ms) ;;
      version <- JSON.as_string (JSON.member "version" ms) ;;
      count <- JSON.as_int (JSON.member "count" ms) ;;
      Ok (CacheMetadata.Build last_updated version count)
  | _ => Err ErrSyntax
  end.

(** [json.MarshalIndent(v, "", "  ")] and [json.Unmarshal(data, &v)] at
    the two types the cache persists. *)
Definition MarshalIndent_Directories (ds : list Directory.t) : result string :=
  v <- JSON.of_Directories ds ;; Ok (JSON.render v).

Definition Unmarshal_Directories (data : string) : result (list Directory.t) :=
  v <- JSON.parse data ;; JSON.to_Directories v.

Definition MarshalIndent_CacheMetadata (m : CacheMetadata.t) : result string :=
  v <- of_CacheMetadata m ;; Ok (JSON.render v).

Definition Unmarshal_CacheMetadata (data : string) : result CacheMetadata.t :=
  v <- JSON.parse data ;; to_CacheMetadata v.

(** [c.apiClient.GetDirectories(ctx, nil)]. *)
Definition api_GetDirectories (w : World) : result (list Directory.t) :=
  remote w.

Definition loadFromCache (c : Cache) (w : World) : result (list Directory.t) :=
  data <- wrapErr "failed to read cache file" (os.ReadFile (cacheFile c) w) ;;
  directories <- wrapErr "failed to unmarshal cache" (Unmarshal_Directories data) ;;
  Ok directories.

Definition loadMetadata (c : Cache) (w : World) : result CacheMetadata.t :=
  data <- wrapErr "failed to read metadata file" (os.ReadFile (metaFile c) w) ;;
  meta <- wrapErr "failed to unmarshal metadata" (Unmarshal_CacheMetadata data) ;;
  Ok meta.

Definition saveMetadata (c : Cache) (meta : CacheMetadata.t) (w : World)
  : option error * World :=
  match MarshalIndent_CacheMetadata meta with
  | Err err => (Some (Wrapped "failed to marshal metadata" err), w)
  | Ok data =>
      match os.WriteFile (metaFile c) data w with
      | (Some err, w') => (Some (Wrapped "failed to write metadata file" err), w')
      | (None, w') => (None, w')
      end
  end.

Definition saveToCache (c : Cache) (directories : list Directory.t) (w : World)
  : option error * World :=
  match os.MkdirAll (config.CacheDir (cfg c)) w with
  | Some err => (Some (Wrapped "failed to create cache directory" err), w)
  | None =>
      match MarshalIndent_Directories directories with
      | Err err => (Some (Wrapped "failed to marshal directories" err), w)
      | Ok data =>
          match os.WriteFile (cacheFile c) data w with
          | (Some err, w') => (Some (Wrapped "failed to write cache file" err), w')
          | (None, w') =>
              let meta := CacheMetadata.Build (now w') "1.0" (len directories) in
              match saveMetadata c meta w' with
              | (Some err, w'') => (Some (Wrapped "failed to save metadata" err), w'')
              | (None, w'') => (None, w'')
              end
          end
      end
  end.

Definition isCacheValid (c : Cache) (w : World) : bool :=
  match loadMetadata c w with
  | Err _ => false
  | Ok meta =>
      if config.CacheTTL (cfg c) <? time_Since w (CacheMetadata.LastUpdated meta)
      then false
      else if os.IsNotExist (os.Stat (cacheFile c) w) then false
      else true
  end.

(** The fast path of [GetDirectories]: [Some] when the method returns
    from inside its first [if]. *)
Definition fromValidCache (c : Cache) (forceRefresh : bool) (w : World)
  : option (list Directory.t) :=
  if negb forceRefresh && isCacheValid c w then
    match loadFromCache c w with
    | Ok directories => Some directories
    | Err _ => None
    end
  else None.

Definition GetDirectories (c : Cache) (forceRefresh : bool) (w : World)
  : result (list Directory.t) * World :=
  match fromValidCache c forceRefresh w with
  | Some directories => (Ok directories, w)
  | None =>
      match api_GetDirectories w with
      | Err err =>
          match loadFromCache c w with
          | Ok cachedDirs => (Ok cachedDirs, w)
          | Err _ => (Err (Wrapped "failed to fetch directories" err), w)
          end
      | Ok directories =>
          (Ok directories, snd (saveToCache c directories w))
      end
  end.

Definition Sync (c : Cache) (w : World) : option error * World :=
  match api_GetDirectories w with
  | Err err => (Some (Wrapped "failed to fetch directories" err), w)
  | Ok directories =>
      match saveToCache c directories w with
      | (Some err, w') => (Some (Wrapped "failed to save to cache" err), w')
      | (None, w') => (None, w')
      end
  end.

End Store.

(** The same files seen at another time and with another answer of the
    remote service. *)
Definition later (w : World) (t : Time) (r : result (list Directory.t)) : World :=
  MkWorld (files w) (readonly w) t r (writes w).

(** What a round trip of the metadata asks of the library, as
    [JSON.faithful_on] does for a collection. *)
Definition metadata_reads_back {lib : JSON.Library} (m : CacheMetadata.t) : Prop :=
  JSON.time_reads_back (CacheMetadata.LastUpdated m)
  /\ forall v : JSON.value,
       of_CacheMetadata m = Ok v -> JSON.parse (JSON.render v) = Ok v.

(** [Clear]: [err != nil && !os.IsNotExist(err)] is the test of both
    removals. *)
Definition Clear (c : Cache) (w : World) : option error * World :=
  let (err, w1) := os.Remove (cacheFile c) w in
  match (if os.IsNotExist err then None else err) with
  | Some e => (Some (Wrapped "failed to remove cache file" e), w1)
  | None =>
      let (err', w2) := os.Remove (metaFile c) w1 in
      match (if os.IsNotExist err' then None else err') with
      | Some e => (Some (Wrapped "failed to remove metadata file" e), w2)
      | None => (None, w2)
      end
  end.

(** The values [GetCacheInfo] stores in its [map[string]interface{}]. *)
Inductive any : Type :=
| AnyBool (b : bool)
| AnyString (s : string)
| AnyInt (i : Z)
| AnyTime (t : Time).

(** The texts [GetCacheInfo] takes from the Go runtime: [err.Error()],
    [d.Round(m)] and [d.String()]. *)
Class Printing : Type := {
  Error : error -> string;
  Duration_Round : Duration -> Duration -> Duration;
  Duration_String : Duration -> string
}.

Definition Second : Duration := 1000000000.

Section CacheInfo.

Context {lib : JSON.Library} {printing : Printing}.

Definition GetCacheInfo (c : Cache) (w : World) : gmap string any * option error :=
  let info : gmap string any := ∅ in
  match loadMetadata c w with
  | Err err =>
      let info := <["cached" := AnyBool false]> info in
      let info := <["error" := AnyString (Error err)]> info in
      (info, None)
  | Ok meta =>
      let info := <["cached" := AnyBool true]> info in
      let info := <["last_updated" := AnyTime (CacheMetadata.LastUpdated meta)]> info in
      let info := <["count" := AnyInt (CacheMetadata.Count meta)]> info in
      let info := <["age" := AnyString (Duration_String
                     (Duration_Round (time_Since w (CacheMetadata.LastUpdated meta))
                                     Second))]> info in
      let info := <["valid" := AnyBool (isCacheValid c w)]> info in
      let info := <["cache_file" := AnyString (cacheFile c)]> info in
      (info, None)
  end.

End CacheInfo.

(** ** internal/ui and the table cells of the commands *)

Module ui.

Definition TruncateString (s : string) (maxLen : Z) : outcome string :=
  if Strings.strlen s <=? maxLen then Returns s
  else if maxLen <=? 3 then Strings.upto s maxLen
  else
    match Strings.upto s (maxLen - 3) with
    | Returns head => Returns (head ++ "...")%string
    | Panics => Panics
    end.

End ui.

(** The first and third cell of a row of [displayDirectoriesTable]. *)
Definition nameCell (dir : Directory.t) : outcome string :=
  ui.TruncateString (Directory.Name dir) 40.

Definition categoryCell (dir : Directory.t) : outcome string :=
  let category := Strings.Join (Directory.Categories dir) ", " in
  if 30 <? Strings.strlen category then ui.TruncateString category 30
  else Returns category.

(** ** internal/export: the grouping of [ExportToMarkdown] *)

Module export.

(** [categoryMap[cat] = append(categoryMap[cat], dir)]. *)
Definition addTo (categoryMap : gmap string (list Directory.t))
    (dir : Directory.t) (cat : string) : gmap string (list Directory.t) :=
  <[cat := (default [] (categoryMap !! cat) ++ [dir])%list]> categoryMap.

(** The two nested loops that fill [categoryMap]. *)
Definition categoryMap (directories : list Directory.t)
  : gmap string (list Directory.t) :=
  fold_left
    (fun m dir => fold_left (fun m cat => addTo m dir cat) (Directory.Categories dir) m)
    directories ∅.

End export.

(** ** internal/api: the query of [Client.GetDirectories] *)

Module api.

(** [url.Values] and its [Set], which replaces what the key held. *)
Definition Values : Type := gmap string (list string).

Definition Set_ (key value : string) (params : Values) : Values :=
  <[key := [value]]> params.

(** The [switch options.SortBy]. *)
Definition order (sortBy : string) : string :=
  if String.eqb sortBy SortMostHelpful then "helpful_count.desc.nullslast"
  else if String.eqb sortBy SortHighestDR then "domain_rating.desc.nullslast"
  else if String.eqb sortBy SortNewest then "created_at.desc"
  else if String.eqb sortBy SortAlpha then "name.asc"
  else "helpful_count.desc.nullslast".

(** The parameters [GetDirectories] has set when it encodes them into
    the request URL. *)
Definition params (options : option FilterOptions.t) : Values :=
  let params : Values := ∅ in
  let params := Set_ "select" "*" params in
  let params := Set_ "is_active" "eq.true" params in
  match options with
  | Some options =>
      let params :=
        if 0 <? FilterOptions.DRMin options
        then Set_ "domain_rating" ("gte." ++ Itoa (FilterOptions.DRMin options)) params
        else params in
      let params :=
        if 0 <? FilterOptions.DRMax options
        then Set_ "domain_rating" ("lte." ++ Itoa (FilterOptions.DRMax options)) params
        else params in
      let params :=
        if 0 <? len (FilterOptions.Pricing options)
        then Set_ "pricing"
               ("in.(" ++ Strings.Join (FilterOptions.Pricing options) "," ++ ")") params
        else params in
      let params :=
        if 0 <? len (FilterOptions.LinkType options)
        then Set_ "link_type"
               ("in.(" ++ Strings.Join (FilterOptions.LinkType options) "," ++ ")") params
        else params in
      let params := Set_ "order" (order (FilterOptions.SortBy options)) params in
      let params :=
        if 0 <? FilterOptions.Limit options
        then Set_ "limit" (Itoa (FilterOptions.Limit options)) params
        else params in
      let params :=
        if 0 <? FilterOptions.Offset options
        then Set_ "offset" (Itoa (FilterOptions.Offset options)) params
        else params in
      params
  | None =>
      Set_ "order" "helpful_count.desc.nullslast" params
  end.

End api.

(** ** The contract of the design document, in its own words

    These definitions follow the text of the design document, not the
    code; the theorems below compare the code with them. *)

Module Spec.

Section Contract.

Context {folding : Strings.CaseFolding}.

(** 4.4, text predicate: case-insensitive substring match against
    name or description. *)
Definition text_ok (o : FilterOptions.t) (d : Directory.t) : bool :=
  String.eqb (FilterOptions.Query o) ""
  || Strings.Contains (Strings.ToLower (Directory.Name d))
                      (Strings.ToLower (FilterOptions.Query o))
  || Strings.Contains (Strings.ToLower (Directory.Description d))
                      (Strings.ToLower (FilterOptions.Query o)).

(** 4.4, category predicate: any of the record's categories equals,
    case-insensitively, any of the requested ones. *)
Definition category_ok (o : FilterOptions.t) (d : Directory.t) : bool :=
  match FilterOptions.Categories o with
  | [] => true
  | requested =>
      existsb (fun own => existsb (fun r => Strings.EqualFold r own) requested)
              (Directory.Categories d)
  end.

(** 4.4, pricing and link-type predicates: membership of the single
    label in the requested set. *)
Definition label_ok (requested : list string) (label : string) : bool :=
  match requested with
  | [] => true
  | _ => existsb (fun r => Strings.EqualFold r label) requested
  end.

(** 4.4, score bounds: a bound applies only if it is configured (3: a
    zero bound is an absent one) and the record's score is known
    (nonzero). *)
Definition score_min_ok (o : FilterOptions.t) (d : Directory.t) : bool :=
  implb (negb (FilterOptions.DRMin o =? 0) && negb (Directory.DomainRating d =? 0))
        (FilterOptions.DRMin o <=? Directory.DomainRating d).

Definition score_max_ok (o : FilterOptions.t) (d : Directory.t) : bool :=
  implb (negb (FilterOptions.DRMax o =? 0) && negb (Directory.DomainRating d =? 0))
        (Directory.DomainRating d <=? FilterOptions.DRMax o).

(** 4.4: the conjunction of the independent predicates. *)
Definition matches (o : FilterOptions.t) (d : Directory.t) : bool :=
  Directory.IsActive d
  && text_ok o d
  && category_ok o d
  && label_ok (FilterOptions.Pricing o) (Directory.Pricing d)
  && label_ok (FilterOptions.LinkType o) (Directory.LinkType d)
  && score_min_ok o d
  && score_max_ok o d.

(** 4.5, descending with the unknown (zero) values last. *)
Definition descending_zero_last (x y : Z) : bool :=
  if x =? 0 then y =? 0
  else if y =? 0 then true
  else y <=? x.

(** 4.5, the sort keys: [before key a b] when [a] may stand before
    [b]; an unrecognised key is the default, most-helpful. *)
Definition before (key : string) (a b : Directory.t) : bool :=
  if String.eqb key SortHighestDR then
    descending_zero_last (Directory.DomainRating a) (Directory.DomainRating b)
  else if String.eqb key SortNewest then
    Directory.CreatedAt b <=? Directory.CreatedAt a
  else if String.eqb key SortAlpha then
    String.leb (Strings.ToLower (Directory.Name a))
               (Strings.ToLower (Directory.Name b))
  else
    descending_zero_last (Directory.HelpfulCount a) (Directory.HelpfulCount b).

(** 4.5: a stable comparator-based sort: the records are inserted from
    the last to the first, each in front of the first record it may
    stand before, so equal records keep the order of the collection. *)
Fixpoint insert (key : string) (x : Directory.t) (l : list Directory.t)
  : list Directory.t :=
  match l with
  | [] => [x]
  | y :: l' => if before key x y then x :: l else y :: insert key x l'
  end.

Definition Sort (filtered : list Directory.t) (key : string)
  : list Directory.t :=
  fold_right (insert key) [] filtered.

End Contract.

(** 4.5: [Paginate(sorted, limit, offset)]; the slice from index [lo]
    up to, not including, index [hi]. *)
Definition range {A} (l : list A) (lo hi : Z) : list A :=
  firstn (Z.to_nat (hi - lo)) (skipn (Z.to_nat lo) l).

Definition Paginate {A} (sorted : list A) (limit offset : Z) : list A :=
  if limit <=? 0 then sorted
  else if len sorted <=? offset then []
  else range sorted offset (Z.min (offset + limit) (len sorted)).

(** 8, the example specification: categories "AI Tools" or "SaaS",
    pricing "free", nothing else. *)
Definition tools_or_saas_and_free : FilterOptions.t :=
  FilterOptions.Build "" ["AI Tools"; "SaaS"] ["free"] [] 0 0 "" 0 0.

(** 4.2: [IsFresh(metadata, ttl, now)]. *)
Definition IsFresh (metadata : CacheMetadata.t) (ttl : Duration) (now : Time) : bool :=
  now - CacheMetadata.LastUpdated metadata <=? ttl.

End Spec.

(** ** The conjunction with the score guards of the code

    The predicates of 4.4 with the one difference the loop shows: a
    score bound is applied only when the bound is positive and the
    record's score is positive, where the document says configured and
    known (nonzero). *)

Module Amended.

Section Contract.

Context {folding : Strings.CaseFolding}.

Definition score_min_ok (o : FilterOptions.t) (d : Directory.t) : bool :=
  implb ((0 <? FilterOptions.DRMin o) && (0 <? Directory.DomainRating d))
        (FilterOptions.DRMin o <=? Directory.DomainRating d).

Definition score_max_ok (o : FilterOptions.t) (d : Directory.t) : bool :=
  implb ((0 <? FilterOptions.DRMax o) && (0 <? Directory.DomainRating d))
        (Directory.DomainRating d <=? FilterOptions.DRMax o).

Definition matches (o : FilterOptions.t) (d : Directory.t) : bool :=
  Directory.IsActive d
  && Spec.text_ok o d
  && Spec.category_ok o d
  && Spec.label_ok (FilterOptions.Pricing o) (Directory.Pricing d)
  && Spec.label_ok (FilterOptions.LinkType o) (Directory.LinkType d)
  && score_min_ok o d
  && score_max_ok o d.

End Contract.

End Amended.

(** ** A concrete library and concrete worlds

    An instance of [JSON.Library] that prints documents as text and
    parses them back, and a few records and worlds on which the engine
    is run in the examples below. *)

Module Fixture.

Import CeresS.

Fixpoint print (v : JSON.value) : sexp :=
  match v with
  | JSON.Null => Atom_ (Raw "null")
  | JSON.Bool true => Atom_ (Raw "true")
  | JSON.Bool false => Atom_ (Raw "false")
  | JSON.Number z => Atom_ (Num z)
  | JSON.Str s => Atom_ (Str s)
  | JSON.Array l => List (Atom_ (Raw "array") :: map print l)
  | JSON.Object ms =>
      List (Atom_ (Raw "object")
            :: map (fun '(k, v') => List [Atom_ (Str k); print v']) ms)
  end.

Fixpoint read (e : sexp) : result JSON.value :=
  match e with
  | Atom_ (Num z) => Ok (JSON.Number z)
  | Atom_ (Str s) => Ok (JSON.Str s)
  | Atom_ (Raw r) =>
      if String.eqb r "null" then Ok JSON.Null
      else if String.eqb r "true" then Ok (JSON.Bool true)
      else if String.eqb r "false" then Ok (JSON.Bool false)
      else Err ErrSyntax
  | List (Atom_ (Raw tag) :: es) =>
      if String.eqb tag "array" then
        vs <- mapM read es ;; Ok (JSON.Array vs)
      else if String.eqb tag "object" then
        ms <- mapM (fun m =>
                match m with
                | List [Atom_ (Str k); e'] => v <- read e' ;; Ok (k, v)
                | _ => Err ErrSyntax
                end) es ;;
        Ok (JSON.Object ms)
      else Err ErrSyntax
  | List _ => Err ErrSyntax
  end.

Definition render (v : JSON.value) : string :=
  CeresFormat.string_of_sexp (print v).

Definition parse (text : string) : result JSON.value :=
  match CeresParser.parse_sexp text with
  | inr e => read e
  | inl _ => Err ErrSyntax
  end.

Definition print_time (t : Time) : result string :=
  Ok (CeresString.string_of_Z t).

Definition read_time (text : string) : result Time :=
  match CeresParser.parse_sexp text with
  | inr (Atom_ (Num z)) => Ok z
  | _ => Err ErrSyntax
  end.

Definition library : JSON.Library :=
  {| JSON.render := render; JSON.parse := parse;
     JSON.Time_MarshalJSON := print_time;
     JSON.Time_UnmarshalJSON := read_time |}.

(** An active record with the given name, categories, pricing, score,
    helpfulness counter and creation time. *)
Definition entry (name : string) (categories : list string) (pricing : string)
    (score helpful : Z) (created : Time) : Directory.t :=
  Directory.Build name name name ("https://" ++ name)%string "" categories pricing
    "dofollow" score 0 0 helpful 0 "" false "" true created created.

Definition inactive (d : Directory.t) : Directory.t :=
  Directory.Build (Directory.ID d) (Directory.Slug d) (Directory.Name d)
    (Directory.URL d) (Directory.Description d) (Directory.Categories d)
    (Directory.Pricing d) (Directory.LinkType d) (Directory.DomainRating d)
    (Directory.OrganicTraffic d) (Directory.OrganicKeywords d)
    (Directory.HelpfulCount d) (Directory.ViewCount d)
    (Directory.SubmissionURL d) (Directory.IsAffiliate d)
    (Directory.AffiliateURL d) false (Directory.CreatedAt d)
    (Directory.UpdatedAt d).

Definition zeta : Directory.t := entry "Zeta" ["AI Tools"] "free" 70 9 100.
Definition alpha : Directory.t := entry "alpha" ["saas"] "Free" 0 5 200.
Definition beta : Directory.t := entry "Beta" ["Blogs"] "free" 40 5 300.
Definition gamma : Directory.t := entry "gamma" ["SaaS"; "Blogs"] "paid" 90 1 400.
Definition delta : Directory.t := inactive (entry "delta" ["SaaS"] "free" 55 7 500).
Definition omega : Directory.t := entry "omega" ["ai tools"] "FREE" (-1) 0 600.

Definition catalog : list Directory.t := [zeta; alpha; beta; gamma; delta; omega].

Definition settings : config.Config :=
  config.Build "" "" "" "/home/u/.config/awesome-directories/cache"
               86400000000000 false false.

Definition store : Cache :=
  MkCache settings
    "/home/u/.config/awesome-directories/cache/directories.json"
    "/home/u/.config/awesome-directories/cache/metadata.json".

(** No file yet, every path writable, the remote down. *)
Definition offline : World :=
  MkWorld ∅ ∅ 1000 (Err (ErrRemote "connection refused")) [].

(** The same with a remote that serves the catalog. *)
Definition online : World :=
  MkWorld ∅ ∅ 1000 (Ok catalog) [].

(** The world after a successful [Sync] at time 1000. *)
Definition stocked : World := snd (@Sync library store online).

(** Three days later: the files are still there, the remote is down. *)
Definition stale : World :=
  MkWorld (files stocked) ∅ 259200000001000
          (Err (ErrRemote "connection refused")) (writes stocked).

(** The stocked world with the collection file removed: the metadata
    file is left on its own. *)
Definition orphaned : World :=
  MkWorld (delete (cacheFile store) (files stocked)) ∅ 1000 (Ok catalog)
          (writes stocked).

(** A world in which the collection file cannot be written. *)
Definition locked : World :=
  MkWorld ∅ {[ cacheFile store ]} 1000 (Ok catalog) [].

(** The active records, in the order the remote serves them (most
    helpful first). *)
Definition listed : list Directory.t := [zeta; alpha; beta; gamma; omega].

(** Plain renderings of errors and durations. *)
Fixpoint error_text (e : error) : string :=
  match e with
  | ErrNotExist path => ("open " ++ path ++ ": no such file or directory")%string
  | ErrPermission path => ("open " ++ path ++ ": permission denied")%string
  | ErrSyntax => "invalid character"
  | ErrRemote msg => msg
  | Wrapped msg cause => (msg ++ ": " ++ error_text cause)%string
  end.

Definition printing : Printing :=
  {| Error := error_text;
     Duration_Round := fun d m => if m <=? 0 then d else (d + m / 2) / m * m;
     Duration_String := fun d => (Itoa (d / Second) ++ "s")%string |}.

(** The stocked world with both cache files protected. *)
Definition sealed : World :=
  MkWorld (files stocked) {[ cacheFile store; metaFile store ]} 1000
          (Ok catalog) (writes stocked).

(** A record without any category. *)
Definition loner : Directory.t := entry "loner" [] "free" 10 2 700.

(** A record whose name and joined categories are wider than the table
    cells. *)
Definition sprawling : Directory.t :=
  entry "The Exhaustive Index of Software Launch Platforms"
        ["Marketing"; "Productivity"; "Developer Tools"] "paid" 60 3 800.

(** The stale world after [Clear]. *)
Definition cleared : World := snd (Clear store stale).

(** The stocked world with only the metadata file protected. *)
Definition half_sealed : World :=
  MkWorld (files stocked) {[ metaFile store ]} 1000 (Ok catalog) (writes stocked).


(** A record with a small known score. *)
Definition modest : Directory.t := entry "modest" ["Blogs"] "free" 10 4 950.

(** Two specifications asking for the same labels. *)
Definition tidy : FilterOptions.t :=
  FilterOptions.Build "" ["AI Tools"; "SaaS"] ["free"] [] 0 0 "helpful" 0 0.

Definition untidy : FilterOptions.t :=
  FilterOptions.Build "" ["SaaS"; "AI Tools"; "SaaS"] ["free"; "free"] [] 0 0 "alpha" 0 0.

End Fixture.


(** * Properties *)

(** ** Integers, lengths and slices *)

Lemma wrap_in_range (z : Z) : GoInt.in_range z -> GoInt.wrap z = z.
Proof.
  unfold GoInt.in_range, GoInt.wrap, GoInt.MinInt, GoInt.MaxInt. intros Hz.
  rewrite Z.mod_small by lia. lia.
Qed.

Lemma len_nonneg {A} (l : list A) : 0 <= len l.
Proof. unfold len. lia. Qed.

Lemma len_in_range_pos {A} (a : A) (l : list A) : (0 <? len (a :: l)) = true.
Proof. unfold len. simpl length. apply Z.ltb_lt. lia. Qed.

Lemma In_range {A} (l : list A) (lo hi : Z) (x : A) :
  In x (Spec.range l lo hi) -> In x l.
Proof.
  unfold Spec.range. intros Hx.
  apply list_elem_of_In. apply list_elem_of_In in Hx.
  apply (subseteq_drop (Z.to_nat lo)), (subseteq_take (Z.to_nat (hi - lo))).
  exact Hx.
Qed.

Lemma slice_Returns {A} (l : list A) (lo hi : Z) :
  0 <= lo -> lo <= hi -> hi <= len l -> slice l lo hi = Returns (Spec.range l lo hi).
Proof.
  intros H0 H1 H2. unfold slice.
  replace (0 <=? lo) with true by (symmetry; apply Z.leb_le; lia).
  replace (lo <=? hi) with true by (symmetry; apply Z.leb_le; lia).
  replace (hi <=? len l) with true by (symmetry; apply Z.leb_le; lia).
  reflexivity.
Qed.

Lemma slice_negative {A} (l : list A) (lo hi : Z) : lo < 0 -> slice l lo hi = Panics.
Proof.
  intros H. unfold slice.
  replace (0 <=? lo) with false by (symmetry; apply Z.leb_gt; lia).
  reflexivity.
Qed.

Lemma slice_inv {A} (l r : list A) (lo hi : Z) :
  slice l lo hi = Returns r -> r = Spec.range l lo hi /\ 0 <= lo <= hi /\ hi <= len l.
Proof.
  unfold slice. intros H.
  destruct (0 <=? lo) eqn:E0; [ | discriminate H ].
  destruct (lo <=? hi) eqn:E1; [ | discriminate H ].
  destruct (hi <=? len l) eqn:E2; [ | discriminate H ].
  simpl in H. injection H as <-.
  apply Z.leb_le in E0, E1, E2. repeat split; assumption.
Qed.

(** ** The filter loop computes the conjunction of the predicates *)

Section FilterProperties.

Context {folding : Strings.CaseFolding}.

Lemma hasCategory_in_existsb (cat : string) (dirCats : list string) :
  hasCategory_in cat dirCats = existsb (Strings.EqualFold cat) dirCats.
Proof.
  induction dirCats as [ | dirCat rest IH ]; simpl; [ reflexivity | ].
  rewrite IH. destruct (Strings.EqualFold cat dirCat); reflexivity.
Qed.

Lemma existsb_swap {A B} (f : A -> B -> bool) (xs : list A) (ys : list B) :
  existsb (fun x => existsb (f x) ys) xs
  = existsb (fun y => existsb (fun x => f x y) xs) ys.
Proof.
  induction xs as [ | x xs IH ]; simpl.
  - induction ys as [ | y ys IHy ]; simpl; [ reflexivity | exact IHy ].
  - rewrite IH. clear IH.
    induction ys as [ | y ys IHy ]; simpl; [ reflexivity | ].
    rewrite <- IHy.
    destruct (f x y), (existsb (fun x0 => f x0 y) xs), (existsb (f x) ys);
      simpl; rewrite ?orb_true_r; reflexivity.
Qed.

Lemma hasCategory_existsb (cats dirCats : list string) :
  hasCategory cats dirCats
  = existsb (fun own => existsb (fun r => Strings.EqualFold r own) cats) dirCats.
Proof.
  rewrite <- (existsb_swap Strings.EqualFold cats dirCats).
  induction cats as [ | cat rest IH ]; simpl; [ reflexivity | ].
  rewrite hasCategory_in_existsb, IH.
  destruct (existsb (Strings.EqualFold cat) dirCats); reflexivity.
Qed.

Lemma hasLabel_existsb (wanted : list string) (label : string) :
  hasLabel wanted label = existsb (fun r => Strings.EqualFold r label) wanted.
Proof.
  induction wanted as [ | w rest IH ]; simpl; [ reflexivity | ].
  rewrite IH. destruct (Strings.EqualFold w label); reflexivity.
Qed.

Lemma label_guard (wanted : list string) (label : string) :
  (0 <? len wanted) && negb (hasLabel wanted label)
  = negb (Spec.label_ok wanted label).
Proof.
  rewrite hasLabel_existsb. unfold Spec.label_ok.
  destruct wanted as [ | w rest ]; [ reflexivity | ].
  rewrite len_in_range_pos. reflexivity.
Qed.

Lemma category_guard (o : FilterOptions.t) (d : Directory.t) :
  (0 <? len (FilterOptions.Categories o))
  && negb (hasCategory (FilterOptions.Categories o) (Directory.Categories d))
  = negb (Spec.category_ok o d).
Proof.
  rewrite hasCategory_existsb. unfold Spec.category_ok.
  destruct (FilterOptions.Categories o) as [ | c rest ]; [ reflexivity | ].
  rewrite len_in_range_pos. reflexivity.
Qed.

Lemma text_guard (o : FilterOptions.t) (d : Directory.t) :
  negb (String.eqb (FilterOptions.Query o) "")
  && (negb (Strings.Contains (Strings.ToLower (Directory.Name d))
                             (Strings.ToLower (FilterOptions.Query o)))
      && negb (Strings.Contains (Strings.ToLower (Directory.Description d))
                                (Strings.ToLower (FilterOptions.Query o))))
  = negb (Spec.text_ok o d).
Proof.
  unfold Spec.text_ok.
  destruct (String.eqb (FilterOptions.Query o) ""),
           (Strings.Contains (Strings.ToLower (Directory.Name d)) _),
           (Strings.Contains (Strings.ToLower (Directory.Description d)) _);
    reflexivity.
Qed.

Lemma score_min_guard (o : FilterOptions.t) (d : Directory.t) :
  (0 <? FilterOptions.DRMin o) && (0 <? Directory.DomainRating d)
  && (Directory.DomainRating d <? FilterOptions.DRMin o)
  = negb (Amended.score_min_ok o d).
Proof.
  unfold Amended.score_min_ok.
  rewrite (Z.ltb_antisym (FilterOptions.DRMin o) (Directory.DomainRating d)).
  destruct (0 <? FilterOptions.DRMin o), (0 <? Directory.DomainRating d),
           (FilterOptions.DRMin o <=? Directory.DomainRating d); reflexivity.
Qed.

Lemma score_max_guard (o : FilterOptions.t) (d : Directory.t) :
  (0 <? FilterOptions.DRMax o) && (0 <? Directory.DomainRating d)
  && (FilterOptions.DRMax o <? Directory.DomainRating d)
  = negb (Amended.score_max_ok o d).
Proof.
  unfold Amended.score_max_ok.
  rewrite (Z.ltb_antisym (Directory.DomainRating d) (FilterOptions.DRMax o)).
  destruct (0 <? FilterOptions.DRMax o), (0 <? Directory.DomainRating d),
           (Directory.DomainRating d <=? FilterOptions.DRMax o); reflexivity.
Qed.

(** One iteration appends the record exactly when it satisfies the
    conjunction. *)
Lemma filterStep_matches (o : FilterOptions.t) (acc : list Directory.t)
    (d : Directory.t) :
  filterStep o acc d = if Amended.matches o d then (acc ++ [d])%list else acc.
Proof.
  unfold filterStep. cbv zeta.
  rewrite text_guard, category_guard, !label_guard, score_min_guard,
    score_max_guard.
  unfold Amended.matches.
  destruct (Directory.IsActive d), (Spec.text_ok o d), (Spec.category_ok o d),
    (Spec.label_ok (FilterOptions.Pricing o) (Directory.Pricing d)),
    (Spec.label_ok (FilterOptions.LinkType o) (Directory.LinkType d)),
    (Amended.score_min_ok o d), (Amended.score_max_ok o d); reflexivity.
Qed.

Lemma fold_filterStep (o : FilterOptions.t) (ds acc : list Directory.t) :
  fold_left (filterStep o) ds acc = (acc ++ List.filter (Amended.matches o) ds)%list.
Proof.
  revert acc. induction ds as [ | d ds IH ]; intros acc; simpl.
  - rewrite app_nil_r. reflexivity.
  - rewrite IH, filterStep_matches.
    destruct (Amended.matches o d); [ | reflexivity ].
    rewrite <- app_assoc. reflexivity.
Qed.

(** The survivors of the loop, in the order of the collection. *)
Lemma filterLoop_filter (o : FilterOptions.t) (ds : list Directory.t) :
  filterLoop o ds = List.filter (Amended.matches o) ds.
Proof. unfold filterLoop. rewrite fold_filterStep. reflexivity. Qed.

Lemma filterLoop_In (o : FilterOptions.t) (ds : list Directory.t) (d : Directory.t) :
  In d (filterLoop o ds) <-> In d ds /\ Amended.matches o d = true.
Proof. rewrite filterLoop_filter. apply List.filter_In. Qed.

(** With no options at all the collection is handed back untouched:
    the filter, and with it the active-flag test, is not run. *)
Lemma FilterDirectories_nil_options (ds : list Directory.t) :
  FilterDirectories ds None = Returns ds.
Proof. reflexivity. Qed.

(** Without a positive limit the survivors are returned as they are. *)
Lemma FilterDirectories_unpaginated (ds : list Directory.t) (o : FilterOptions.t) :
  FilterOptions.Limit o <= 0 ->
  FilterDirectories ds (Some o) = Returns (filterLoop o ds).
Proof.
  intros Hl. unfold FilterDirectories, sortDirectories.
  replace (0 <? FilterOptions.Limit o) with false
    by (symmetry; apply Z.ltb_ge; exact Hl).
  reflexivity.
Qed.

(** Whatever is returned is drawn from the survivors. *)
Lemma FilterDirectories_from_survivors (ds : list Directory.t)
    (o : FilterOptions.t) (r : list Directory.t) (d : Directory.t) :
  FilterDirectories ds (Some o) = Returns r -> In d r -> In d (filterLoop o ds).
Proof.
  unfold FilterDirectories, sortDirectories. intros H Hd.
  destruct (0 <? FilterOptions.Limit o).
  - destruct (len (filterLoop o ds) <=? FilterOptions.Offset o).
    + injection H as <-. destruct Hd.
    + apply slice_inv in H. destruct H as [-> _].
      eapply In_range. exact Hd.
  - injection H as <-. exact Hd.
Qed.

End FilterProperties.

(** ** The filter engine *)

Section FilterClaims.

Context {folding : Strings.CaseFolding}.

Lemma matches_zero (d : Directory.t) :
  Amended.matches FilterOptions.zero d = Directory.IsActive d.
Proof.
  unfold Amended.matches, Spec.text_ok, Spec.category_ok, Spec.label_ok,
    Amended.score_min_ok, Amended.score_max_ok. simpl.
  rewrite !andb_true_r. reflexivity.
Qed.

(** C3. Every record [FilterDirectories] returns has its active flag
    set, whatever the filter specification; with the empty
    specification the result is exactly the active records, so an
    inactive record is left out although no criterion was supplied. *)
Theorem active_flag_is_mandatory :
  (forall (ds : list Directory.t) (o : FilterOptions.t) (r : list Directory.t)
          (d : Directory.t),
      FilterDirectories ds (Some o) = Returns r -> In d r ->
      Directory.IsActive d = true)
  /\ (forall ds : list Directory.t,
      FilterDirectories ds (Some FilterOptions.zero)
      = Returns (List.filter Directory.IsActive ds)).
Proof.
  split.
  - intros ds o r d Hr Hd.
    apply (FilterDirectories_from_survivors ds o r d Hr) in Hd.
    apply filterLoop_In in Hd. destruct Hd as [_ Hm].
    unfold Amended.matches in Hm.
    destruct (Directory.IsActive d); [ reflexivity | discriminate Hm ].
  - intros ds. rewrite FilterDirectories_unpaginated by (simpl; lia).
    rewrite filterLoop_filter. f_equal.
    apply List.filter_ext. exact matches_zero.
Qed.

Lemma matches_tools_or_saas_and_free (d : Directory.t) :
  Amended.matches Spec.tools_or_saas_and_free d
  = Directory.IsActive d
    && existsb (fun own => Strings.EqualFold "AI Tools" own
                           || Strings.EqualFold "SaaS" own)
               (Directory.Categories d)
    && Strings.EqualFold "free" (Directory.Pricing d).
Proof.
  unfold Amended.matches, Spec.text_ok, Spec.category_ok, Spec.label_ok,
    Amended.score_min_ok, Amended.score_max_ok. simpl.
  rewrite !andb_true_r, orb_false_r. do 2 f_equal.
  induction (Directory.Categories d) as [ | own rest IH ]; simpl;
    [ reflexivity | ].
  rewrite IH, orb_false_r. reflexivity.
Qed.

Lemma positive_is_nonzero (x : Z) : 0 <= x -> (0 <? x) = negb (x =? 0).
Proof.
  intros H. destruct (Z.ltb_spec 0 x), (Z.eqb_spec x 0); simpl; try reflexivity; lia.
Qed.

(** For bounds and scores that are not negative the conjunction with
    the guards of the code is the conjunction of the design document. *)
Lemma Amended_matches_Spec (o : FilterOptions.t) (d : Directory.t) :
  0 <= FilterOptions.DRMin o -> 0 <= FilterOptions.DRMax o ->
  0 <= Directory.DomainRating d ->
  Amended.matches o d = Spec.matches o d.
Proof.
  intros Hmin Hmax Hd.
  unfold Amended.matches, Spec.matches, Amended.score_min_ok, Amended.score_max_ok,
    Spec.score_min_ok, Spec.score_max_ok.
  rewrite !(positive_is_nonzero _ Hmin), !(positive_is_nonzero _ Hmax),
    !(positive_is_nonzero _ Hd).
  reflexivity.
Qed.

(** C5, amended. A record survives only if it satisfies the
    conjunction of the configured predicates, a score bound being
    applied only when the bound is positive and the record's score is
    positive; for bounds and scores that are not negative this is the
    conjunction of the design document.  Without pagination the result
    is exactly the records of the collection that satisfy it, in order;
    a set-valued field is satisfied by any one of its values (the
    example: categories "AI Tools" or "SaaS" and pricing "free"); an
    absent field constrains nothing. *)
Theorem filter_is_conjunction_of_predicates :
  (forall (ds : list Directory.t) (o : FilterOptions.t) (r : list Directory.t)
          (d : Directory.t),
      FilterDirectories ds (Some o) = Returns r -> In d r ->
      In d ds /\ Amended.matches o d = true)
  /\ (forall (ds : list Directory.t) (o : FilterOptions.t),
      FilterOptions.Limit o <= 0 ->
      FilterDirectories ds (Some o) = Returns (List.filter (Amended.matches o) ds))
  /\ (forall (o : FilterOptions.t) (d : Directory.t),
      0 <= FilterOptions.DRMin o -> 0 <= FilterOptions.DRMax o ->
      0 <= Directory.DomainRating d ->
      Amended.matches o d = Spec.matches o d)
  /\ (forall ds : list Directory.t,
      FilterDirectories ds (Some Spec.tools_or_saas_and_free)
      = Returns (List.filter
          (fun d => Directory.IsActive d
                    && existsb (fun own => Strings.EqualFold "AI Tools" own
                                           || Strings.EqualFold "SaaS" own)
                               (Directory.Categories d)
                    && Strings.EqualFold "free" (Directory.Pricing d)) ds))
  /\ (forall (o : FilterOptions.t) (d : Directory.t),
      (FilterOptions.Query o = "" -> Spec.text_ok o d = true)
      /\ (FilterOptions.Categories o = [] -> Spec.category_ok o d = true)
      /\ (FilterOptions.Pricing o = [] ->
          Spec.label_ok (FilterOptions.Pricing o) (Directory.Pricing d) = true)
      /\ (FilterOptions.LinkType o = [] ->
          Spec.label_ok (FilterOptions.LinkType o) (Directory.LinkType d) = true)
      /\ (FilterOptions.DRMin o = 0 -> Amended.score_min_ok o d = true)
      /\ (FilterOptions.DRMax o = 0 -> Amended.score_max_ok o d = true)).
Proof.
  split; [ | split; [ | split; [ | split ] ] ].
  - intros ds o r d Hr Hd. apply filterLoop_In.
    exact (FilterDirectories_from_survivors ds o r d Hr Hd).
  - intros ds o Hl. rewrite FilterDirectories_unpaginated by exact Hl.
    rewrite filterLoop_filter. reflexivity.
  - exact Amended_matches_Spec.
  - intros ds. rewrite FilterDirectories_unpaginated by (simpl; lia).
    rewrite filterLoop_filter. f_equal.
    apply List.filter_ext. exact matches_tools_or_saas_and_free.
  - intros o d. repeat split; intros H.
    + unfold Spec.text_ok. rewrite H. reflexivity.
    + unfold Spec.category_ok. rewrite H. reflexivity.
    + rewrite H. reflexivity.
    + rewrite H. reflexivity.
    + unfold Amended.score_min_ok. rewrite H. reflexivity.
    + unfold Amended.score_max_ok. rewrite H. reflexivity.
Qed.

Lemma matches_with_bounds (o : FilterOptions.t) (d : Directory.t) :
  Amended.matches o d
  = Amended.matches (FilterOptions.with_bounds o 0 0) d
    && Amended.score_min_ok o d && Amended.score_max_ok o d.
Proof.
  unfold Amended.matches at 2. unfold Amended.score_min_ok at 2.
  unfold Amended.score_max_ok at 2. simpl.
  rewrite !andb_true_r. reflexivity.
Qed.

(** C7, amended. Among the records [FilterDirectories] keeps before
    pagination (the whole of its output when [Limit <= 0]; every page
    is drawn from them), a record whose quality score is zero, or
    negative, is kept under the score bounds exactly when it is kept
    without them; a record with a positive score is kept exactly when
    it is kept without them and its score is at least a positive
    minimum and at most a positive maximum.  A bound that is zero or
    negative constrains nothing. *)
Theorem score_bounds_spare_unknown_scores
    (ds : list Directory.t) (o : FilterOptions.t) :
  (forall d : Directory.t,
      Directory.DomainRating d <= 0 ->
      (In d (filterLoop o ds)
       <-> In d (filterLoop (FilterOptions.with_bounds o 0 0) ds)))
  /\ (forall d : Directory.t,
      0 < Directory.DomainRating d ->
      (In d (filterLoop o ds)
       <-> In d (filterLoop (FilterOptions.with_bounds o 0 0) ds)
           /\ (0 < FilterOptions.DRMin o ->
               FilterOptions.DRMin o <= Directory.DomainRating d)
           /\ (0 < FilterOptions.DRMax o ->
               Directory.DomainRating d <= FilterOptions.DRMax o)))
  /\ (FilterOptions.DRMin o <= 0 -> FilterOptions.DRMax o <= 0 ->
      filterLoop o ds = filterLoop (FilterOptions.with_bounds o 0 0) ds)
  /\ (forall (r : list Directory.t) (d : Directory.t),
      FilterDirectories ds (Some o) = Returns r -> In d r -> In d (filterLoop o ds))
  /\ (FilterOptions.Limit o <= 0 ->
      FilterDirectories ds (Some o) = Returns (filterLoop o ds)).
Proof.
  split; [ | split; [ | split; [ | split ] ] ].
  - intros d Hd. rewrite !filterLoop_In, (matches_with_bounds o d).
    unfold Amended.score_min_ok, Amended.score_max_ok.
    replace (0 <? Directory.DomainRating d) with false
      by (symmetry; apply Z.ltb_ge; exact Hd).
    rewrite !andb_false_r. simpl. rewrite !andb_true_r. tauto.
  - intros d Hd. rewrite !filterLoop_In, (matches_with_bounds o d).
    unfold Amended.score_min_ok, Amended.score_max_ok.
    replace (0 <? Directory.DomainRating d) with true
      by (symmetry; apply Z.ltb_lt; exact Hd).
    rewrite !andb_true_r.
    destruct (Amended.matches (FilterOptions.with_bounds o 0 0) d); simpl.
    2: { split; [ intros [? ?]; discriminate | intros [[? ?] _]; discriminate ]. }
    destruct (Z.ltb_spec 0 (FilterOptions.DRMin o)),
             (Z.ltb_spec 0 (FilterOptions.DRMax o)),
             (Z.leb_spec (FilterOptions.DRMin o) (Directory.DomainRating d)),
             (Z.leb_spec (Directory.DomainRating d) (FilterOptions.DRMax o));
      simpl; intuition (try discriminate; try lia).
  - intros Hmin Hmax. rewrite !filterLoop_filter. apply List.filter_ext.
    intros d. rewrite matches_with_bounds.
    unfold Amended.score_min_ok, Amended.score_max_ok.
    replace (0 <? FilterOptions.DRMin o) with false
      by (symmetry; apply Z.ltb_ge; exact Hmin).
    replace (0 <? FilterOptions.DRMax o) with false
      by (symmetry; apply Z.ltb_ge; exact Hmax).
    simpl. rewrite !andb_true_r. reflexivity.
  - intros r d. apply FilterDirectories_from_survivors.
  - apply FilterDirectories_unpaginated.
Qed.

(** The sort key has no effect on what [FilterDirectories] returns. *)
Lemma sort_key_is_ignored (ds : list Directory.t) (o : FilterOptions.t)
    (key : string) :
  FilterDirectories ds (Some (FilterOptions.with_sort o key))
  = FilterDirectories ds (Some o).
Proof. reflexivity. Qed.

(** ** Pagination *)

(** Past the end: the empty sequence. *)
Lemma FilterDirectories_past_end (ds : list Directory.t) (o : FilterOptions.t) :
  0 < FilterOptions.Limit o ->
  len (filterLoop o ds) <= FilterOptions.Offset o ->
  FilterDirectories ds (Some o) = Returns [].
Proof.
  intros Hl Ho. unfold FilterDirectories, sortDirectories.
  replace (0 <? FilterOptions.Limit o) with true
    by (symmetry; apply Z.ltb_lt; exact Hl).
  replace (len (filterLoop o ds) <=? FilterOptions.Offset o) with true
    by (symmetry; apply Z.leb_le; exact Ho).
  reflexivity.
Qed.

(** Inside the sequence, with [start + Limit] representable: the slice
    expression is evaluated at [start] and the smaller of
    [start + Limit] and the length. *)
Lemma FilterDirectories_page (ds : list Directory.t) (o : FilterOptions.t) :
  0 < FilterOptions.Limit o ->
  0 <= FilterOptions.Offset o < len (filterLoop o ds) ->
  FilterOptions.Offset o + FilterOptions.Limit o <= GoInt.MaxInt ->
  FilterDirectories ds (Some o)
  = slice (filterLoop o ds) (FilterOptions.Offset o)
      (Z.min (FilterOptions.Offset o + FilterOptions.Limit o)
             (len (filterLoop o ds))).
Proof.
  intros Hl Ho Hmax. unfold FilterDirectories, sortDirectories, GoInt.add.
  replace (0 <? FilterOptions.Limit o) with true
    by (symmetry; apply Z.ltb_lt; exact Hl).
  replace (len (filterLoop o ds) <=? FilterOptions.Offset o) with false
    by (symmetry; apply Z.leb_gt; lia).
  rewrite wrap_in_range
    by (unfold GoInt.in_range, GoInt.MinInt; split; [ lia | exact Hmax ]).
  destruct (Z.ltb_spec (len (filterLoop o ds))
              (FilterOptions.Offset o + FilterOptions.Limit o)) as [Hlt | Hge].
  - rewrite Z.min_r by lia. reflexivity.
  - rewrite Z.min_l by lia. reflexivity.
Qed.

(** A negative offset reaches the slice expression and fails its
    bounds check. *)
Lemma FilterDirectories_negative_offset (ds : list Directory.t)
    (o : FilterOptions.t) :
  0 < FilterOptions.Limit o -> FilterOptions.Offset o < 0 ->
  FilterDirectories ds (Some o) = Panics.
Proof.
  intros Hl Ho. unfold FilterDirectories, sortDirectories.
  replace (0 <? FilterOptions.Limit o) with true
    by (symmetry; apply Z.ltb_lt; exact Hl).
  replace (len (filterLoop o ds) <=? FilterOptions.Offset o) with false
    by (symmetry; apply Z.leb_gt; pose proof (len_nonneg (filterLoop o ds)); lia).
  apply slice_negative. exact Ho.
Qed.

(** C6, amended. With [filtered] the sorted survivors:
    if [Limit <= 0] the whole of [filtered] is returned; otherwise, if
    [Offset >= len(filtered)] the result is empty; otherwise, provided
    [Offset] is not negative and [Offset + Limit] does not exceed the
    largest [int], the result is the slice from [Offset] up to the
    smaller of [Offset + Limit] and the length.  For five survivors
    and [Limit = 10]: [Offset = 5] gives the empty sequence, [Offset = 3]
    the last two. *)
Theorem pagination_follows_the_contract
    (ds : list Directory.t) (o : FilterOptions.t) :
  let filtered := sortDirectories (filterLoop o ds) (FilterOptions.SortBy o) in
  (FilterOptions.Limit o <= 0
   \/ len filtered <= FilterOptions.Offset o
   \/ (0 <= FilterOptions.Offset o
       /\ FilterOptions.Offset o + FilterOptions.Limit o <= GoInt.MaxInt) ->
   FilterDirectories ds (Some o)
   = Returns (Spec.Paginate filtered (FilterOptions.Limit o) (FilterOptions.Offset o)))
  /\ (length filtered = 5%nat -> FilterOptions.Limit o = 10 ->
      (FilterOptions.Offset o = 5 -> FilterDirectories ds (Some o) = Returns [])
      /\ (FilterOptions.Offset o = 3 ->
          FilterDirectories ds (Some o) = Returns (skipn 3 filtered))).
Proof.
  unfold sortDirectories. cbv zeta.
  assert (Hmain :
    FilterOptions.Limit o <= 0
    \/ len (filterLoop o ds) <= FilterOptions.Offset o
    \/ (0 <= FilterOptions.Offset o
        /\ FilterOptions.Offset o + FilterOptions.Limit o <= GoInt.MaxInt) ->
    FilterDirectories ds (Some o)
    = Returns (Spec.Paginate (filterLoop o ds) (FilterOptions.Limit o)
                 (FilterOptions.Offset o))).
  { intros Hpre. unfold Spec.Paginate.
    destruct (Z.leb_spec (FilterOptions.Limit o) 0) as [Hl | Hl].
    { apply FilterDirectories_unpaginated. exact Hl. }
    destruct (Z.leb_spec (len (filterLoop o ds)) (FilterOptions.Offset o))
      as [Ho | Ho].
    { apply FilterDirectories_past_end; assumption. }
    destruct Hpre as [Hpre | [Hpre | [H0 Hmax]]]; [ lia | lia | ].
    rewrite FilterDirectories_page by (try split; assumption).
    apply slice_Returns; lia. }
  split; [ exact Hmain | ].
  intros H5 H10. assert (Hlen : len (filterLoop o ds) = 5)
    by (unfold len; rewrite H5; reflexivity).
  split; intros Hoff.
  - apply FilterDirectories_past_end; lia.
  - rewrite Hmain by (right; right; unfold GoInt.MaxInt; lia).
    unfold Spec.Paginate, Spec.range. rewrite Hlen, H10, Hoff. simpl.
    f_equal. apply firstn_all2. rewrite length_skipn, H5. simpl. lia.
Qed.

(** C10, amended. The pagination step returns, with slice bounds
    [0 <= start <= end <= length], for every collection and every
    specification whose offset is not negative and whose
    [Offset + Limit] does not exceed the largest [int]; and the first
    condition is needed: with a positive limit, every negative offset
    makes the slice expression panic. *)
Theorem pagination_is_total_within_int_range :
  (forall (ds : list Directory.t) (o : FilterOptions.t),
      0 <= FilterOptions.Offset o ->
      FilterOptions.Offset o + FilterOptions.Limit o <= GoInt.MaxInt ->
      exists r : list Directory.t,
        FilterDirectories ds (Some o) = Returns r
        /\ (0 < FilterOptions.Limit o ->
            FilterOptions.Offset o < len (filterLoop o ds) ->
            let start := FilterOptions.Offset o in
            let end_ := Z.min (FilterOptions.Offset o + FilterOptions.Limit o)
                              (len (filterLoop o ds)) in
            0 <= start /\ start <= end_ /\ end_ <= len (filterLoop o ds)
            /\ slice (filterLoop o ds) start end_ = Returns r))
  /\ (forall (ds : list Directory.t) (o : FilterOptions.t),
      0 < FilterOptions.Limit o -> FilterOptions.Offset o < 0 ->
      FilterDirectories ds (Some o) = Panics).
Proof.
  split; [ | exact FilterDirectories_negative_offset ].
  intros ds o H0 Hmax.
  destruct (Z.leb_spec (FilterOptions.Limit o) 0) as [Hl | Hl].
  { eexists. split; [ apply FilterDirectories_unpaginated; exact Hl | ]. lia. }
  destruct (Z.leb_spec (len (filterLoop o ds)) (FilterOptions.Offset o))
    as [Ho | Ho].
  { eexists. split; [ apply FilterDirectories_past_end; assumption | ]. lia. }
  rewrite FilterDirectories_page by (try split; assumption).
  eexists. split.
  - apply slice_Returns; lia.
  - intros _ _. cbv zeta. repeat split; try lia.
    apply slice_Returns; lia.
Qed.

End FilterClaims.

(** ** The persisted store and the freshness policy *)

Section StoreClaims.

Context {lib : JSON.Library}.

Lemma Time_Sub_in_range (t u : Time) :
  GoInt.in_range (t - u) -> Time_Sub t u = t - u.
Proof. unfold GoInt.in_range, Time_Sub. lia. Qed.

Lemma isCacheValid_with_snapshot (c : Cache) (w : World) (meta : CacheMetadata.t) :
  loadMetadata c w = Ok meta -> is_Some (files w !! cacheFile c) ->
  isCacheValid c w
  = (time_Since w (CacheMetadata.LastUpdated meta) <=? config.CacheTTL (cfg c)).
Proof.
  intros Hmeta [data Hdata]. unfold isCacheValid, os.Stat.
  rewrite Hmeta, Hdata. simpl.
  rewrite (Z.leb_antisym (config.CacheTTL (cfg c))).
  destruct (config.CacheTTL (cfg c) <? _); reflexivity.
Qed.

(** C4. For a snapshot whose metadata loads and whose collection
    file exists, the freshness check holds exactly when the age
    [time.Since(meta.LastUpdated)] does not exceed the configured TTL:
    an age equal to the TTL is fresh, any greater age is not; and
    whenever the difference of the two instants fits a [Duration] the
    check is the design document's [IsFresh]. *)
Theorem freshness_boundary (c : Cache) (w : World) (meta : CacheMetadata.t) :
  loadMetadata c w = Ok meta ->
  is_Some (files w !! cacheFile c) ->
  let age := time_Since w (CacheMetadata.LastUpdated meta) in
  let ttl := config.CacheTTL (cfg c) in
  (isCacheValid c w = true <-> age <= ttl)
  /\ (age = ttl -> isCacheValid c w = true)
  /\ (ttl < age -> isCacheValid c w = false)
  /\ (GoInt.in_range (now w - CacheMetadata.LastUpdated meta) ->
      isCacheValid c w = Spec.IsFresh meta ttl (now w)).
Proof.
  intros Hmeta Hfile. cbv zeta.
  rewrite (isCacheValid_with_snapshot c w meta Hmeta Hfile).
  split; [ apply Z.leb_le | ].
  split; [ intros Heq; rewrite Heq; apply Z.leb_refl | ].
  split; [ intros Hlt; apply Z.leb_gt; exact Hlt | ].
  intros Hrange. unfold Spec.IsFresh, time_Since.
  rewrite Time_Sub_in_range by exact Hrange. reflexivity.
Qed.

(** C2. With a collection file that loads to [ds] and a remote that
    fails, [GetDirectories(ctx, false)] returns [ds] and no error,
    leaving the world as it was, whether or not the snapshot is still
    fresh; [Sync(ctx)] in the same world returns the fetch error. *)
Theorem stale_fallback (c : Cache) (w : World) (ds : list Directory.t)
    (e : error) :
  loadFromCache c w = Ok ds ->
  remote w = Err e ->
  GetDirectories c false w = (Ok ds, w)
  /\ Sync c w = (Some (Wrapped "failed to fetch directories" e), w).
Proof.
  intros Hload Hremote. split.
  - unfold GetDirectories, fromValidCache, api_GetDirectories.
    destruct (negb false && isCacheValid c w); rewrite Hload;
      [ reflexivity | ].
    rewrite Hremote. reflexivity.
  - unfold Sync, api_GetDirectories. rewrite Hremote. reflexivity.
Qed.

(** Every way [saveToCache] can end: nothing written; only the
    collection written; the collection and then the metadata written. *)
Lemma saveToCache_cases (c : Cache) (ds : list Directory.t) (w : World) :
  let r := fst (saveToCache c ds w) in
  let w' := snd (saveToCache c ds w) in
  (r <> None /\ writes w' = writes w /\ files w' = files w)
  \/ (exists data : string,
        MarshalIndent_Directories ds = Ok data
        /\ r <> None
        /\ writes w' = (writes w ++ [cacheFile c])%list
        /\ files w' = <[cacheFile c := data]> (files w))
  \/ (exists data mdata : string,
        MarshalIndent_Directories ds = Ok data
        /\ MarshalIndent_CacheMetadata
             (CacheMetadata.Build (now w) "1.0" (len ds)) = Ok mdata
        /\ r = None
        /\ writes w' = (writes w ++ [cacheFile c; metaFile c])%list
        /\ files w' = <[metaFile c := mdata]> (<[cacheFile c := data]> (files w))).
Proof.
  cbv zeta. destruct (saveToCache c ds w) as [r w'] eqn:E.
  simpl fst. simpl snd.
  unfold saveToCache, saveMetadata, os.MkdirAll, os.WriteFile in E.
  destruct (decide (config.CacheDir (cfg c) ∈ readonly w)).
  { injection E as <- <-. left. repeat split. discriminate. }
  destruct (MarshalIndent_Directories ds) as [data | err].
  2: { injection E as <- <-. left. repeat split. discriminate. }
  destruct (decide (cacheFile c ∈ readonly w)).
  { injection E as <- <-. left. repeat split. discriminate. }
  simpl in E.
  destruct (MarshalIndent_CacheMetadata _) as [mdata | err].
  2: { injection E as <- <-. right. left. exists data.
       repeat split. discriminate. }
  destruct (decide (metaFile c ∈ readonly w)); injection E as <- <-.
  - right. left. exists data. repeat split. discriminate.
  - right. right. exists data, mdata. simpl.
    rewrite <- app_assoc. repeat split.
Qed.

(** C9. Without the collection file the freshness check answers
    false, whatever the metadata says; and [saveToCache] writes either
    nothing, or the collection file alone, or the collection file and
    then the metadata file: the metadata is written only right after
    the collection was, and a save that reports success has written
    both, in that order. *)
Theorem metadata_needs_collection :
  (forall (c : Cache) (w : World),
      files w !! cacheFile c = None -> isCacheValid c w = false)
  /\ (forall (c : Cache) (ds : list Directory.t) (w : World),
      exists t : list string,
        writes (snd (saveToCache c ds w)) = (writes w ++ t)%list
        /\ (t = [] \/ t = [cacheFile c] \/ t = [cacheFile c; metaFile c])
        /\ (t = [] -> files (snd (saveToCache c ds w)) = files w)
        /\ (fst (saveToCache c ds w) = None <-> t = [cacheFile c; metaFile c])).
Proof.
  split.
  - intros c w Hnone. unfold isCacheValid, os.Stat. rewrite Hnone. simpl.
    destruct (loadMetadata c w) as [meta | err]; [ | reflexivity ].
    destruct (config.CacheTTL (cfg c) <? _); reflexivity.
  - intros c ds w.
    destruct (saveToCache_cases c ds w)
      as [(Hr & Hw & Hf) | [(data & _ & Hr & Hw & Hf)
                           | (data & mdata & _ & _ & Hr & Hw & Hf)]].
    + exists []. rewrite app_nil_r. repeat split; auto.
      * intros Hnone. contradiction.
      * intros Ht. discriminate Ht.
    + exists [cacheFile c]. repeat split; auto.
      * intros Ht. discriminate Ht.
      * intros Hnone. contradiction.
      * intros Ht. discriminate Ht.
    + exists [cacheFile c; metaFile c]. repeat split; auto.
      intros Ht. discriminate Ht.
Qed.

(** ** Save, then load *)






End StoreClaims.

(** * Further properties of the code *)

(** ** More on filtering and paging *)

Lemma wrap_overflow (z : Z) :
  GoInt.MaxInt < z -> z <= 2 * GoInt.MaxInt -> GoInt.wrap z = z - 2 ^ 64.
Proof.
  unfold GoInt.wrap, GoInt.MaxInt. intros H1 H2.
  replace (z + 2 ^ 63) with ((z - 2 ^ 63) + 1 * 2 ^ 64) by lia.
  rewrite Z.mod_add by lia. rewrite Z.mod_small by lia. lia.
Qed.

Lemma range_split {A} (l : list A) (lo mid hi : Z) :
  0 <= lo -> lo <= mid -> mid <= hi ->
  (Spec.range l lo mid ++ Spec.range l mid hi)%list = Spec.range l lo hi.
Proof.
  intros H0 H1 H2. unfold Spec.range.
  replace (Z.to_nat (hi - lo)) with (Z.to_nat (mid - lo) + Z.to_nat (hi - mid))%nat by lia.
  replace (Z.to_nat mid) with (Z.to_nat lo + Z.to_nat (mid - lo))%nat by lia.
  rewrite <- drop_drop. apply take_take_drop.
Qed.

Lemma range_beyond {A} (l : list A) (lo hi : Z) :
  len l <= hi -> Spec.range l lo hi = Spec.range l lo (len l).
Proof.
  intros H. unfold Spec.range, len in *.
  destruct (Z.le_gt_cases lo (Z.of_nat (length l))) as [Hlo | Hlo].
  - rewrite !take_ge; [ reflexivity | | ]; rewrite length_drop; lia.
  - rewrite !drop_ge by lia. rewrite !take_nil. reflexivity.
Qed.

Lemma filter_sublist {A} (f : A -> bool) (l : list A) :
  sublist (List.filter f l) l.
Proof.
  induction l as [ | a l IH ]; simpl; [ constructor | ].
  destruct (f a); [ apply sublist_skip | apply sublist_cons ]; exact IH.
Qed.

Lemma filter_filter_same {A} (f : A -> bool) (l : list A) :
  List.filter f (List.filter f l) = List.filter f l.
Proof.
  induction l as [ | a l IH ]; simpl; [ reflexivity | ].
  destruct (f a) eqn:E; simpl; rewrite ?E, IH; reflexivity.
Qed.

Lemma existsb_same_elements {A} (f : A -> bool) (l l' : list A) :
  (forall x, In x l <-> In x l') -> existsb f l = existsb f l'.
Proof.
  intros H. apply eq_true_iff_eq. rewrite !existsb_exists.
  split; intros (x & Hx & Hf); exists x; split; try exact Hf; apply H; exact Hx.
Qed.

Lemma same_elements_nil {A} (l l' : list A) :
  (forall x, In x l <-> In x l') -> (l = [] <-> l' = []).
Proof.
  intros H. split; intros ->.
  - destruct l' as [ | a l' ]; [ reflexivity | ].
    destruct (proj2 (H a) (or_introl eq_refl)).
  - destruct l as [ | a l ]; [ reflexivity | ].
    destruct (proj1 (H a) (or_introl eq_refl)).
Qed.

Section FilterMore.

Context {folding : Strings.CaseFolding}.

(** The page and the sort key play no part in the loop. *)
Lemma filterLoop_with_page (o : FilterOptions.t) (limit offset : Z)
    (ds : list Directory.t) :
  filterLoop (FilterOptions.with_page o limit offset) ds = filterLoop o ds.
Proof. reflexivity. Qed.

(** Inside the range of [int] and at a non-negative offset the page is
    the one the contract describes. *)
Lemma FilterDirectories_Paginate (ds : list Directory.t) (o : FilterOptions.t) :
  0 <= FilterOptions.Offset o ->
  FilterOptions.Offset o + FilterOptions.Limit o <= GoInt.MaxInt ->
  FilterDirectories ds (Some o)
  = Returns (Spec.Paginate (filterLoop o ds) (FilterOptions.Limit o)
               (FilterOptions.Offset o)).
Proof.
  intros H0 Hmax. unfold Spec.Paginate.
  destruct (Z.leb_spec (FilterOptions.Limit o) 0) as [Hl | Hl].
  { apply FilterDirectories_unpaginated. exact Hl. }
  destruct (Z.leb_spec (len (filterLoop o ds)) (FilterOptions.Offset o)) as [Ho | Ho].
  { apply FilterDirectories_past_end; assumption. }
  rewrite FilterDirectories_page by (try split; assumption).
  apply slice_Returns; lia.
Qed.

(** X1. With [Offset = 0], as the search, filter and export commands
    leave it, and a positive limit, [FilterDirectories] returns the
    first [Limit] survivors (all of them when there are fewer) and
    cannot panic. *)
Theorem first_page_is_a_prefix (ds : list Directory.t) (o : FilterOptions.t) :
  FilterOptions.Offset o = 0 ->
  0 < FilterOptions.Limit o ->
  FilterOptions.Limit o <= GoInt.MaxInt ->
  FilterDirectories ds (Some o)
  = Returns (firstn (Z.to_nat (FilterOptions.Limit o)) (filterLoop o ds)).
Proof.
  intros Hoff Hl Hmax.
  rewrite FilterDirectories_Paginate by lia.
  unfold Spec.Paginate, Spec.range. rewrite Hoff.
  replace (FilterOptions.Limit o <=? 0) with false by (symmetry; apply Z.leb_gt; lia).
  destruct (Z.leb_spec (len (filterLoop o ds)) 0) as [Hn | Hn].
  - unfold len in Hn. destruct (filterLoop o ds); [ | simpl in Hn; lia ].
    rewrite take_nil. reflexivity.
  - f_equal. change (Z.to_nat 0) with 0%nat. rewrite drop_0, Z.sub_0_r, Z.add_0_l.
    destruct (Z.le_gt_cases (FilterOptions.Limit o) (len (filterLoop o ds))) as [H | H].
    + rewrite Z.min_l by lia. reflexivity.
    + rewrite Z.min_r by lia. unfold len in *.
      rewrite (take_ge _ (Z.to_nat (FilterOptions.Limit o))) by lia.
      apply take_ge. lia.
Qed.

(** X2. Whatever [FilterDirectories] returns is a selection from the
    collection in the collection's order (nothing is reordered,
    repeated or invented), and under a positive limit it holds at most
    [Limit] records. *)
Theorem result_is_an_ordered_selection (ds : list Directory.t)
    (o : FilterOptions.t) (r : list Directory.t) :
  GoInt.in_range (FilterOptions.Limit o) ->
  GoInt.in_range (FilterOptions.Offset o) ->
  FilterDirectories ds (Some o) = Returns r ->
  sublist r ds /\ (0 < FilterOptions.Limit o -> len r <= FilterOptions.Limit o).
Proof.
  intros HL HO. unfold FilterDirectories, sortDirectories.
  rewrite filterLoop_filter.
  pose proof (filter_sublist (Amended.matches o) ds) as Hsub.
  set (f := List.filter (Amended.matches o) ds) in *.
  destruct (Z.ltb_spec 0 (FilterOptions.Limit o)) as [Hl | Hl].
  2: { intros H. injection H as <-. split; [ exact Hsub | lia ]. }
  destruct (Z.leb_spec (len f) (FilterOptions.Offset o)) as [Ho | Ho].
  { intros H. injection H as <-. split; [ apply sublist_nil_l | unfold len; simpl; lia ]. }
  intros H. apply slice_inv in H. destruct H as (-> & [Hlo Hhi] & Hlen).
  split.
  - unfold Spec.range. etransitivity; [ apply sublist_take | ].
    etransitivity; [ apply sublist_drop | exact Hsub ].
  - intros _. unfold Spec.range.
    set (hi := if len f <? GoInt.add (FilterOptions.Offset o) (FilterOptions.Limit o)
               then len f
               else GoInt.add (FilterOptions.Offset o) (FilterOptions.Limit o)) in *.
    assert (Hcut : len (take (Z.to_nat (hi - FilterOptions.Offset o))
                          (drop (Z.to_nat (FilterOptions.Offset o)) f))
                   <= hi - FilterOptions.Offset o)
      by (unfold len; rewrite length_take; lia).
    enough (hi - FilterOptions.Offset o <= FilterOptions.Limit o) by lia.
    clear Hcut. subst hi.
    unfold GoInt.in_range, GoInt.MinInt, GoInt.MaxInt, GoInt.add in *.
    destruct (Z.le_gt_cases (FilterOptions.Offset o + FilterOptions.Limit o)
                (2 ^ 63 - 1)) as [Hfit | Hover].
    + rewrite wrap_in_range in Hhi, Hlen |- *
        by (unfold GoInt.in_range, GoInt.MinInt, GoInt.MaxInt; lia).
      destruct (Z.ltb_spec (len f) (FilterOptions.Offset o + FilterOptions.Limit o));
        lia.
    + rewrite wrap_overflow in Hhi by (unfold GoInt.MaxInt; lia).
      pose proof (len_nonneg f).
      destruct (Z.ltb_spec (len f)
                  (FilterOptions.Offset o + FilterOptions.Limit o - 2 ^ 64)); lia.
Qed.

(** X3. Consecutive pages fit together: the page of [k] records at
    offset [a] followed by the page of [m] records at offset [a + k] is
    the page of [k + m] records at offset [a]. *)
Theorem consecutive_pages_concatenate (ds : list Directory.t)
    (o : FilterOptions.t) (a k m : Z) :
  0 <= a -> 0 < k -> 0 < m -> a + k + m <= GoInt.MaxInt ->
  exists p1 p2 : list Directory.t,
    FilterDirectories ds (Some (FilterOptions.with_page o k a)) = Returns p1
    /\ FilterDirectories ds (Some (FilterOptions.with_page o m (a + k))) = Returns p2
    /\ FilterDirectories ds (Some (FilterOptions.with_page o (k + m) a))
       = Returns (p1 ++ p2)%list.
Proof.
  intros Ha Hk Hm Hmax.
  rewrite !FilterDirectories_Paginate by (simpl; lia).
  rewrite !filterLoop_with_page. simpl FilterOptions.Limit. simpl FilterOptions.Offset.
  set (f := filterLoop o ds). pose proof (len_nonneg f) as Hn.
  eexists. eexists. split; [ reflexivity | ]. split; [ reflexivity | ].
  f_equal. unfold Spec.Paginate.
  replace (k <=? 0) with false by (symmetry; apply Z.leb_gt; lia).
  replace (m <=? 0) with false by (symmetry; apply Z.leb_gt; lia).
  replace (k + m <=? 0) with false by (symmetry; apply Z.leb_gt; lia).
  destruct (Z.leb_spec (len f) a) as [H1 | H1].
  { replace (len f <=? a + k) with true by (symmetry; apply Z.leb_le; lia).
    reflexivity. }
  destruct (Z.leb_spec (len f) (a + k)) as [H2 | H2].
  - rewrite app_nil_r. rewrite !Z.min_r by lia. reflexivity.
  - rewrite (Z.min_l (a + k)) by lia.
    replace (a + k + m) with (a + (k + m)) by lia.
    symmetry. apply range_split; lia.
Qed.

(** X4. Without pagination the filter works record by record: the
    result for two collections put end to end is the two results put
    end to end, and filtering a result again changes nothing. *)
Theorem filtering_is_per_record (ds1 ds2 : list Directory.t) (o : FilterOptions.t) :
  FilterOptions.Limit o <= 0 ->
  exists r1 r2 : list Directory.t,
    FilterDirectories ds1 (Some o) = Returns r1
    /\ FilterDirectories ds2 (Some o) = Returns r2
    /\ FilterDirectories (ds1 ++ ds2) (Some o) = Returns (r1 ++ r2)%list
    /\ FilterDirectories r1 (Some o) = Returns r1.
Proof.
  intros Hl. exists (filterLoop o ds1), (filterLoop o ds2).
  rewrite !FilterDirectories_unpaginated by exact Hl.
  rewrite !filterLoop_filter.
  rewrite List.filter_app, filter_filter_same. repeat split.
Qed.

(** X5. The requested categories, pricing labels and link types are
    read as sets: two specifications that ask for the same labels, in
    any order and with any repetitions, and agree on query, bounds and
    page, return the same result, whatever their sort keys. *)
Theorem requested_labels_are_sets (ds : list Directory.t) (o o' : FilterOptions.t) :
  FilterOptions.Query o = FilterOptions.Query o' ->
  (forall x, In x (FilterOptions.Categories o) <-> In x (FilterOptions.Categories o')) ->
  (forall x, In x (FilterOptions.Pricing o) <-> In x (FilterOptions.Pricing o')) ->
  (forall x, In x (FilterOptions.LinkType o) <-> In x (FilterOptions.LinkType o')) ->
  FilterOptions.DRMin o = FilterOptions.DRMin o' ->
  FilterOptions.DRMax o = FilterOptions.DRMax o' ->
  FilterOptions.Limit o = FilterOptions.Limit o' ->
  FilterOptions.Offset o = FilterOptions.Offset o' ->
  FilterDirectories ds (Some o) = FilterDirectories ds (Some o').
Proof.
  intros Hq Hc Hp Hl Hmin Hmax Hlim Hoff.
  assert (Hlabel : forall l l' label,
             (forall x, In x l <-> In x l') ->
             Spec.label_ok l label = Spec.label_ok l' label).
  { intros l l' label H. unfold Spec.label_ok.
    pose proof (same_elements_nil l l' H) as Hnil.
    destruct l as [ | a l ], l' as [ | a' l' ]; try reflexivity.
    - discriminate (proj1 Hnil eq_refl).
    - discriminate (proj2 Hnil eq_refl).
    - apply existsb_same_elements. exact H. }
  assert (Hcat : forall d, Spec.category_ok o d = Spec.category_ok o' d).
  { intros d. unfold Spec.category_ok.
    pose proof (same_elements_nil _ _ Hc) as Hnil.
    destruct (FilterOptions.Categories o) as [ | a l ],
             (FilterOptions.Categories o') as [ | a' l' ]; try reflexivity.
    - discriminate (proj1 Hnil eq_refl).
    - discriminate (proj2 Hnil eq_refl).
    - induction (Directory.Categories d) as [ | own rest IH ];
        [ reflexivity | ].
      cbn [existsb] in *. rewrite <- IH.
      pose proof (existsb_same_elements (fun r => Strings.EqualFold r own) _ _ Hc)
        as Hown.
      cbn [existsb] in Hown. rewrite Hown. reflexivity. }
  assert (Hsame : filterLoop o ds = filterLoop o' ds).
  { rewrite !filterLoop_filter. apply List.filter_ext. intros d.
    unfold Amended.matches, Spec.text_ok, Amended.score_min_ok, Amended.score_max_ok.
    rewrite Hq, Hmin, Hmax, (Hlabel _ _ _ Hp), (Hlabel _ _ _ Hl), (Hcat d).
    reflexivity. }
  unfold FilterDirectories, sortDirectories. rewrite Hsame, Hlim, Hoff. reflexivity.
Qed.

End FilterMore.

(** ** More on the store and the orchestration *)

Section StoreMore.

Context {lib : JSON.Library}.

Lemma isCacheValid_without_collection (c : Cache) (w : World) :
  files w !! cacheFile c = None -> isCacheValid c w = false.
Proof.
  intros Hnone. unfold isCacheValid, os.Stat. rewrite Hnone. simpl.
  destruct (loadMetadata c w) as [meta | err]; [ | reflexivity ].
  destruct (config.CacheTTL (cfg c) <? _); reflexivity.
Qed.

Lemma isCacheValid_without_metadata (c : Cache) (w : World) :
  files w !! metaFile c = None -> isCacheValid c w = false.
Proof.
  intros Hnone. unfold isCacheValid, loadMetadata, os.ReadFile.
  rewrite Hnone. reflexivity.
Qed.

(** What [Clear] leaves when it reports success. *)
Lemma Clear_success (c : Cache) (w w' : World) :
  Clear c w = (None, w') ->
  files w' = delete (metaFile c) (delete (cacheFile c) (files w))
  /\ readonly w' = readonly w /\ now w' = now w /\ remote w' = remote w
  /\ writes w' = writes w.
Proof.
  unfold Clear, os.Remove.
  destruct (files w !! cacheFile c) as [data | ] eqn:E1.
  - destruct (decide (cacheFile c ∈ readonly w)); simpl; [ discriminate | ].
    destruct (delete (cacheFile c) (files w) !! metaFile c) as [mdata | ] eqn:E2;
      simpl.
    + destruct (decide (metaFile c ∈ readonly w)); simpl; [ discriminate | ].
      intros H. injection H as <-. simpl. repeat split.
    + intros H. injection H as <-. simpl.
      rewrite (delete_id _ _ E2). repeat split.
  - simpl. rewrite (delete_id _ _ E1).
    destruct (files w !! metaFile c) as [mdata | ] eqn:E2; simpl.
    + destruct (decide (metaFile c ∈ readonly w)); simpl; [ discriminate | ].
      intros H. injection H as <-. simpl. repeat split.
    + intros H. injection H as <-. rewrite (delete_id _ _ E2). repeat split.
Qed.

(** X6. When neither cache file sits under a protected path, [Clear]
    reports success whether the files exist or not, and leaves the file
    system exactly without the two files: every other file, the clock
    and the write log are as before. *)
Theorem Clear_removes_both_files (c : Cache) (w : World) :
  cacheFile c ∉ readonly w -> metaFile c ∉ readonly w ->
  exists w' : World,
    Clear c w = (None, w')
    /\ files w' = delete (metaFile c) (delete (cacheFile c) (files w))
    /\ files w' !! cacheFile c = None
    /\ files w' !! metaFile c = None
    /\ (forall p, p <> cacheFile c -> p <> metaFile c -> files w' !! p = files w !! p)
    /\ writes w' = writes w.
Proof.
  intros Hc Hm.
  assert (Hok : exists w', Clear c w = (None, w')).
  { unfold Clear, os.Remove.
    destruct (files w !! cacheFile c) as [data | ]; simpl.
    - rewrite decide_False by exact Hc. simpl.
      destruct (delete (cacheFile c) (files w) !! metaFile c); simpl.
      + rewrite decide_False by exact Hm. eexists. reflexivity.
      + eexists. reflexivity.
    - destruct (files w !! metaFile c); simpl.
      + rewrite decide_False by exact Hm. eexists. reflexivity.
      + eexists. reflexivity. }
  destruct Hok as [w' Hw']. exists w'.
  destruct (Clear_success c w w' Hw') as (Hf & _ & _ & _ & Hwr).
  split; [ exact Hw' | ]. split; [ exact Hf | ]. rewrite Hf.
  split; [ apply lookup_delete_None; right; apply lookup_delete_eq | ].
  split; [ apply lookup_delete_eq | ].
  split; [ | exact Hwr ].
  intros p Hp1 Hp2. rewrite !lookup_delete_ne by congruence. reflexivity.
Qed.

(** X7. After a [Clear] that reported success the cache is gone: the
    freshness check fails, [loadFromCache] reports the missing file,
    [GetDirectories] has no stale copy to fall back on and returns the
    remote's error when the remote is down, and a second [Clear]
    succeeds again and changes nothing. *)
Theorem cleared_cache_is_gone (c : Cache) (w w' : World) :
  Clear c w = (None, w') ->
  isCacheValid c w' = false
  /\ loadFromCache c w'
     = Err (Wrapped "failed to read cache file" (ErrNotExist (cacheFile c)))
  /\ (forall (e : error) (force : bool),
        remote w = Err e ->
        GetDirectories c force w'
        = (Err (Wrapped "failed to fetch directories" e), w'))
  /\ Clear c w' = (None, w').
Proof.
  intros Hclear.
  destruct (Clear_success c w w' Hclear) as (Hf & _ & _ & Hr & _).
  assert (Hc : files w' !! cacheFile c = None)
    by (rewrite Hf; apply lookup_delete_None; right; apply lookup_delete_eq).
  assert (Hm : files w' !! metaFile c = None)
    by (rewrite Hf; apply lookup_delete_eq).
  assert (Hload : loadFromCache c w'
                  = Err (Wrapped "failed to read cache file" (ErrNotExist (cacheFile c))))
    by (unfold loadFromCache, os.ReadFile; rewrite Hc; reflexivity).
  assert (Hvalid : isCacheValid c w' = false)
    by (apply isCacheValid_without_collection; exact Hc).
  split; [ exact Hvalid | ]. split; [ exact Hload | ]. split.
  - intros e force He. unfold GetDirectories, fromValidCache, api_GetDirectories.
    rewrite Hvalid, andb_false_r, Hload, Hr, He. reflexivity.
  - unfold Clear, os.Remove. rewrite Hc. simpl. rewrite Hm. reflexivity.
Qed.

(** X8. [Clear] stops at the first removal that fails.  If the
    collection file exists under a protected path nothing is removed,
    the metadata included.  If the collection file can be removed but
    the metadata file is protected, the collection is gone and the
    metadata stays behind; the freshness check then answers false. *)
Theorem Clear_stops_at_the_first_failure (c : Cache) (w : World) :
  (is_Some (files w !! cacheFile c) -> cacheFile c ∈ readonly w ->
   Clear c w
   = (Some (Wrapped "failed to remove cache file" (ErrPermission (cacheFile c))), w))
  /\ (cacheFile c ∉ readonly w -> cacheFile c <> metaFile c ->
      is_Some (files w !! metaFile c) -> metaFile c ∈ readonly w ->
      exists w' : World,
        Clear c w
        = (Some (Wrapped "failed to remove metadata file"
                   (ErrPermission (metaFile c))), w')
        /\ files w' !! cacheFile c = None
        /\ files w' !! metaFile c = files w !! metaFile c
        /\ isCacheValid c w' = false).
Proof.
  split.
  - intros [data Hdata] Hro. unfold Clear, os.Remove. rewrite Hdata.
    rewrite decide_True by exact Hro. reflexivity.
  - intros Hc Hne [mdata Hmdata] Hm. unfold Clear, os.Remove.
    destruct (files w !! cacheFile c) as [data | ] eqn:E1; simpl.
    + rewrite decide_False by exact Hc. simpl.
      rewrite lookup_delete_ne by exact Hne. rewrite Hmdata.
      rewrite decide_True by exact Hm. simpl.
      eexists. split; [ reflexivity | ]. simpl.
      split; [ apply lookup_delete_eq | ].
      split; [ rewrite lookup_delete_ne by exact Hne;
               first [ reflexivity | exact Hmdata ] | ].
      apply isCacheValid_without_collection. simpl. apply lookup_delete_eq.
    + rewrite Hmdata. rewrite decide_True by exact Hm. simpl.
      exists w. split; [ reflexivity | ]. split; [ exact E1 | ].
      split; [ first [ reflexivity | exact Hmdata ] | ].
      apply isCacheValid_without_collection. exact E1.
Qed.

Lemma to_of_CacheMetadata (m : CacheMetadata.t) (v : JSON.value) :
  JSON.time_reads_back (CacheMetadata.LastUpdated m) ->
  of_CacheMetadata m = Ok v -> to_CacheMetadata v = Ok m.
Proof.
  intros Ht. unfold of_CacheMetadata.
  destruct (JSON.Time_MarshalJSON (CacheMetadata.LastUpdated m)) as [text | e] eqn:E;
    [ | discriminate ].
  simpl. intros Hv. injection Hv as <-.
  unfold to_CacheMetadata.
  cbn [JSON.member String.eqb Ascii.eqb Bool.eqb andb].
  cbn [JSON.as_string JSON.as_int JSON.as_time bind].
  rewrite (Ht text E). cbn [bind]. destruct m; reflexivity.
Qed.

Lemma Unmarshal_MarshalIndent_CacheMetadata (m : CacheMetadata.t) (data : string) :
  metadata_reads_back m ->
  MarshalIndent_CacheMetadata m = Ok data -> Unmarshal_CacheMetadata data = Ok m.
Proof.
  intros [Ht Htext]. unfold MarshalIndent_CacheMetadata, Unmarshal_CacheMetadata.
  destruct (of_CacheMetadata m) as [v | e] eqn:E; [ | discriminate ].
  simpl. intros Hd. injection Hd as <-.
  rewrite (Htext v eq_refl). simpl.
  apply to_of_CacheMetadata; assumption.
Qed.

(** X9. Metadata written by [saveMetadata] is read back unchanged by
    [loadMetadata]: timestamp, version and count. *)
Theorem saveMetadata_then_loadMetadata (c : Cache) (m : CacheMetadata.t)
    (w w' : World) :
  metadata_reads_back m ->
  saveMetadata c m w = (None, w') ->
  loadMetadata c w' = Ok m.
Proof.
  intros Hlib. unfold saveMetadata, os.WriteFile.
  destruct (MarshalIndent_CacheMetadata m) as [data | e] eqn:E; [ | discriminate ].
  destruct (decide (metaFile c ∈ readonly w)); [ discriminate | ].
  intros H. injection H as <-.
  unfold loadMetadata, os.ReadFile. simpl.
  rewrite lookup_insert_eq. simpl.
  rewrite (Unmarshal_MarshalIndent_CacheMetadata m data Hlib E). reflexivity.
Qed.


(** X12. A valid cache is served without the remote: when the
    freshness check holds and the collection file loads,
    [GetDirectories(ctx, false)] returns the cached records and leaves
    the world as it is, whatever the remote would have answered. *)
Theorem valid_cache_is_served_without_the_remote (c : Cache) (w : World)
    (ds : list Directory.t) (r : result (list Directory.t)) :
  isCacheValid c w = true ->
  loadFromCache c w = Ok ds ->
  GetDirectories c false (later w (now w) r) = (Ok ds, later w (now w) r).
Proof.
  intros Hvalid Hload. unfold GetDirectories, fromValidCache.
  change (isCacheValid c (later w (now w) r)) with (isCacheValid c w).
  change (loadFromCache c (later w (now w) r)) with (loadFromCache c w).
  rewrite Hvalid, Hload. reflexivity.
Qed.

(** X13. When the remote answers, a forced refresh, and equally a
    read that finds no valid cache, returns the remote's records
    whether or not they could be saved; [Sync] runs the same save but
    reports its failure, so it succeeds exactly when the save does. *)
Theorem refresh_returns_what_the_remote_sent (c : Cache) (w : World)
    (ds : list Directory.t) :
  remote w = Ok ds ->
  GetDirectories c true w = (Ok ds, snd (saveToCache c ds w))
  /\ (isCacheValid c w = false ->
      GetDirectories c false w = (Ok ds, snd (saveToCache c ds w)))
  /\ snd (Sync c w) = snd (saveToCache c ds w)
  /\ (fst (Sync c w) = None <-> fst (saveToCache c ds w) = None).
Proof.
  intros Hr. unfold GetDirectories, fromValidCache, Sync, api_GetDirectories.
  rewrite Hr. simpl. split; [ reflexivity | ].
  split; [ intros ->; reflexivity | ].
  destruct (saveToCache c ds w) as [[err | ] w']; simpl.
  - split; [ reflexivity | ]. split; discriminate.
  - split; [ reflexivity | ]. split; reflexivity.
Qed.


(** X15. With no loadable collection file and a remote that fails,
    [GetDirectories] returns the remote's error, wrapped, forced or not,
    and changes nothing. *)
Theorem no_data_anywhere_is_an_error (c : Cache) (w : World)
    (e e' : error) (force : bool) :
  loadFromCache c w = Err e' ->
  remote w = Err e ->
  GetDirectories c force w = (Err (Wrapped "failed to fetch directories" e), w).
Proof.
  intros Hload Hr. unfold GetDirectories, fromValidCache, api_GetDirectories.
  rewrite Hload, Hr.
  destruct (negb force && isCacheValid c w); reflexivity.
Qed.

(** [saveToCache] writes to the two cache files only. *)
Lemma saveToCache_frame (c : Cache) (ds : list Directory.t) (w : World) (p : string) :
  p <> cacheFile c -> p <> metaFile c ->
  files (snd (saveToCache c ds w)) !! p = files w !! p
  /\ readonly (snd (saveToCache c ds w)) = readonly w
  /\ now (snd (saveToCache c ds w)) = now w
  /\ remote (snd (saveToCache c ds w)) = remote w.
Proof.
  intros Hp1 Hp2. unfold saveToCache, saveMetadata, os.MkdirAll, os.WriteFile.
  destruct (decide (config.CacheDir (cfg c) ∈ readonly w)); [ repeat split | ].
  destruct (MarshalIndent_Directories ds); [ | repeat split ].
  destruct (decide (cacheFile c ∈ readonly w)); [ repeat split | ]. simpl.
  destruct (MarshalIndent_CacheMetadata _); simpl.
  - destruct (decide (metaFile c ∈ readonly w)); simpl.
    + rewrite lookup_insert_ne by congruence. repeat split.
    + rewrite !lookup_insert_ne by congruence. repeat split.
  - rewrite lookup_insert_ne by congruence. repeat split.
Qed.

(** X16. [GetDirectories], [Sync] and [Clear] touch nothing but the
    two cache files: every other file has the content it had, and the
    protected paths, the clock and the remote are as before. *)
Theorem only_the_cache_files_are_touched (c : Cache) (w : World)
    (force : bool) (p : string) :
  p <> cacheFile c -> p <> metaFile c ->
  let unchanged (w' : World) :=
    files w' !! p = files w !! p /\ readonly w' = readonly w
    /\ now w' = now w /\ remote w' = remote w in
  unchanged (snd (GetDirectories c force w))
  /\ unchanged (snd (Sync c w))
  /\ unchanged (snd (Clear c w)).
Proof.
  intros Hp1 Hp2. cbv zeta.
  pose proof (fun ds => saveToCache_frame c ds w p Hp1 Hp2) as Hsave.
  split; [ | split ].
  - unfold GetDirectories, api_GetDirectories.
    destruct (fromValidCache c force w); [ repeat split | ].
    destruct (remote w) as [ds | e] eqn:Hr.
    + simpl. apply Hsave.
    + destruct (loadFromCache c w); repeat split; exact Hr.
  - unfold Sync, api_GetDirectories.
    destruct (remote w) as [ds | e] eqn:Hr; [ | repeat split; exact Hr ].
    specialize (Hsave ds).
    destruct (saveToCache c ds w) as [[err | ] w']; simpl in *; exact Hsave.
  - unfold Clear, os.Remove.
    destruct (files w !! cacheFile c); simpl.
    + destruct (decide (cacheFile c ∈ readonly w)); simpl; [ repeat split | ].
      destruct (delete (cacheFile c) (files w) !! metaFile c); simpl.
      * destruct (decide (metaFile c ∈ readonly w)); simpl;
          rewrite ?lookup_delete_ne by congruence; repeat split.
      * rewrite lookup_delete_ne by congruence. repeat split.
    + destruct (files w !! metaFile c); simpl; [ | repeat split ].
      destruct (decide (metaFile c ∈ readonly w)); simpl;
        rewrite ?lookup_delete_ne by congruence; repeat split.
Qed.

End StoreMore.

(** ** The cache report *)

Section CacheInfoMore.

Context {lib : JSON.Library} {printing : Printing}.

(** X10. [GetCacheInfo] never returns an error.  Its "cached" entry
    says whether the metadata file loads, and nothing about the
    collection file; its "valid" entry is true exactly when the
    freshness check holds.  So metadata left without its collection is
    reported as cached and not valid. *)
Theorem GetCacheInfo_reports_the_metadata (c : Cache) (w : World) :
  snd (GetCacheInfo c w) = None
  /\ (fst (GetCacheInfo c w) !! "cached" = Some (AnyBool true)
      <-> exists m, loadMetadata c w = Ok m)
  /\ (fst (GetCacheInfo c w) !! "cached" = Some (AnyBool false)
      <-> exists e, loadMetadata c w = Err e)
  /\ (fst (GetCacheInfo c w) !! "valid" = Some (AnyBool true)
      <-> isCacheValid c w = true)
  /\ (forall m, loadMetadata c w = Ok m -> files w !! cacheFile c = None ->
        fst (GetCacheInfo c w) !! "cached" = Some (AnyBool true)
        /\ fst (GetCacheInfo c w) !! "valid" = Some (AnyBool false)
        /\ fst (GetCacheInfo c w) !! "count" = Some (AnyInt (CacheMetadata.Count m))).
Proof.
  unfold GetCacheInfo. cbv zeta.
  destruct (loadMetadata c w) as [m | e] eqn:E; simpl.
  - split; [ reflexivity | ].
    split; [ split; [ intros _; exists m; reflexivity | intros _ ] | ].
    { rewrite !lookup_insert_ne by discriminate. apply lookup_insert_eq. }
    split; [ split; [ | intros [e He]; discriminate He ] | ].
    { rewrite !lookup_insert_ne by discriminate. rewrite lookup_insert_eq.
      discriminate. }
    split.
    + rewrite lookup_insert_ne by discriminate. rewrite lookup_insert_eq.
      split; [ intros H; injection H as ->; reflexivity | intros ->; reflexivity ].
    + intros m' Hm' Hnone. injection Hm' as <-.
      rewrite (isCacheValid_without_collection c w Hnone).
      split; [ rewrite !lookup_insert_ne by discriminate; apply lookup_insert_eq | ].
      split; [ rewrite lookup_insert_ne by discriminate; apply lookup_insert_eq | ].
      rewrite !lookup_insert_ne by discriminate. apply lookup_insert_eq.
  - split; [ reflexivity | ].
    split; [ split; [ | intros [m Hm]; discriminate Hm ] | ].
    { rewrite lookup_insert_ne by discriminate. rewrite lookup_insert_eq.
      discriminate. }
    split; [ split; [ intros _; exists e; reflexivity | intros _ ] | ].
    { rewrite lookup_insert_ne by discriminate. apply lookup_insert_eq. }
    split; [ | intros m Hm; discriminate Hm ].
    rewrite !lookup_insert_ne by discriminate. rewrite lookup_empty.
    unfold isCacheValid. rewrite E. split; discriminate.
Qed.

(** X11. After a save that reported success, and given that the
    library reads back the metadata text it wrote, the report made at
    any later reading [t] of the clock (and whatever the remote service
    would then answer) says: cached, as many records as were saved,
    last updated at the time of the save, and valid exactly when the
    age [t - now] of the snapshot, as [time.Since] computes it, does
    not exceed the TTL.  So the report is valid while the age is within
    the TTL and not valid once the age exceeds it, which with a TTL of
    zero is as soon as the clock has moved. *)
Theorem report_after_a_successful_save (c : Cache) (ds : list Directory.t)
    (w w' : World) (t : Time) (r : result (list Directory.t)) :
  metadata_reads_back (CacheMetadata.Build (now w) "1.0" (len ds)) ->
  saveToCache c ds w = (None, w') ->
  let info := fst (GetCacheInfo c (later w' t r)) in
  info !! "cached" = Some (AnyBool true)
  /\ info !! "count" = Some (AnyInt (len ds))
  /\ info !! "last_updated" = Some (AnyTime (now w))
  /\ info !! "valid"
     = Some (AnyBool (Time_Sub t (now w) <=? config.CacheTTL (cfg c)))
  /\ (0 <= t - now w -> t - now w <= config.CacheTTL (cfg c) ->
      info !! "valid" = Some (AnyBool true))
  /\ (GoInt.in_range (t - now w) -> config.CacheTTL (cfg c) < t - now w ->
      info !! "valid" = Some (AnyBool false)).
Proof.
  intros Hmeta Hsave. cbv zeta.
  destruct (saveToCache_cases c ds w)
    as [(Hr & _) | [(data & _ & Hr & _)
                   | (data & mdata & Hdata & Hmdata & _ & _ & Hf)]];
    rewrite Hsave in *; simpl in *; try contradiction.
  assert (Hload : loadMetadata c (later w' t r)
                  = Ok (CacheMetadata.Build (now w) "1.0" (len ds))).
  { unfold loadMetadata, os.ReadFile, later. simpl.
    rewrite Hf, lookup_insert_eq. simpl.
    rewrite (Unmarshal_MarshalIndent_CacheMetadata _ mdata Hmeta Hmdata).
    reflexivity. }
  assert (Hfile : is_Some (files (later w' t r) !! cacheFile c)).
  { unfold later. simpl.
    rewrite Hf. destruct (decide (metaFile c = cacheFile c)) as [-> | Hne].
    - rewrite lookup_insert_eq. eexists. reflexivity.
    - rewrite lookup_insert_ne by exact Hne. rewrite lookup_insert_eq.
      eexists. reflexivity. }
  assert (Hvalid : isCacheValid c (later w' t r)
                   = (Time_Sub t (now w) <=? config.CacheTTL (cfg c))).
  { rewrite (isCacheValid_with_snapshot c (later w' t r) _ Hload Hfile).
    reflexivity. }
  assert (Hentry : fst (GetCacheInfo c (later w' t r)) !! "valid"
                   = Some (AnyBool (Time_Sub t (now w) <=? config.CacheTTL (cfg c)))).
  { unfold GetCacheInfo. rewrite Hload, Hvalid. cbv zeta. simpl.
    rewrite lookup_insert_ne by discriminate. apply lookup_insert_eq. }
  split; [ | split; [ | split; [ | split; [ exact Hentry | split ] ] ] ].
  - unfold GetCacheInfo. rewrite Hload. cbv zeta. simpl.
    rewrite !lookup_insert_ne by discriminate. apply lookup_insert_eq.
  - unfold GetCacheInfo. rewrite Hload. cbv zeta. simpl.
    rewrite !lookup_insert_ne by discriminate. apply lookup_insert_eq.
  - unfold GetCacheInfo. rewrite Hload. cbv zeta. simpl.
    rewrite !lookup_insert_ne by discriminate. apply lookup_insert_eq.
  - intros H0 Hle. rewrite Hentry. do 2 f_equal. apply Z.leb_le.
    unfold Time_Sub, GoInt.MinInt, GoInt.MaxInt. lia.
  - intros Hrange Hgt. rewrite Hentry. do 2 f_equal. apply Z.leb_gt.
    rewrite (Time_Sub_in_range _ _ Hrange). exact Hgt.
Qed.

End CacheInfoMore.

(** ** Truncation and the table cells *)

Lemma String_length_append (a b : string) :
  String.length (a ++ b) = (String.length a + String.length b)%nat.
Proof. induction a as [ | ch a IH ]; simpl; [ reflexivity | rewrite IH; reflexivity ]. Qed.

Lemma String_length_take (n : nat) (s : string) :
  String.length (Strings.take n s) = Nat.min n (String.length s).
Proof.
  revert s. induction n as [ | n IH ]; intros [ | ch s ]; simpl; try reflexivity.
  rewrite IH. reflexivity.
Qed.

Lemma take_is_a_prefix (n : nat) (s : string) :
  exists rest : string, s = (Strings.take n s ++ rest)%string.
Proof.
  revert s. induction n as [ | n IH ]; intros s.
  - exists s. destruct s; reflexivity.
  - destruct s as [ | ch s ]; [ exists EmptyString; reflexivity | ].
    destruct (IH s) as [rest Hrest]. exists rest.
    change (String ch s = String ch (Strings.take n s ++ rest)%string).
    f_equal. exact Hrest.
Qed.

Lemma upto_Returns (s : string) (hi : Z) :
  0 <= hi -> hi <= Strings.strlen s ->
  Strings.upto s hi = Returns (Strings.take (Z.to_nat hi) s).
Proof.
  intros H0 H1. unfold Strings.upto.
  replace (0 <=? hi) with true by (symmetry; apply Z.leb_le; exact H0).
  replace (hi <=? Strings.strlen s) with true by (symmetry; apply Z.leb_le; exact H1).
  reflexivity.
Qed.

(** X17. For a limit that is not negative, [TruncateString] returns a
    string of exactly [min(len(s), maxLen)] bytes: [s] itself when it
    fits, and otherwise, for a limit above 3, the start of [s] followed
    by three dots. *)
Theorem TruncateString_fits (s : string) (maxLen : Z) :
  0 <= maxLen ->
  exists r : string,
    ui.TruncateString s maxLen = Returns r
    /\ Strings.strlen r = Z.min (Strings.strlen s) maxLen
    /\ (Strings.strlen s <= maxLen -> r = s)
    /\ (3 < maxLen -> maxLen < Strings.strlen s ->
        exists head rest : string,
          r = (head ++ "...")%string /\ s = (head ++ rest)%string
          /\ Strings.strlen head = maxLen - 3).
Proof.
  intros H0. unfold ui.TruncateString.
  destruct (Z.leb_spec (Strings.strlen s) maxLen) as [Hfit | Hlong].
  { exists s. split; [ reflexivity | ]. split; [ lia | ].
    split; [ reflexivity | lia ]. }
  destruct (Z.leb_spec maxLen 3) as [Hsmall | Hbig].
  - rewrite upto_Returns by lia. eexists. split; [ reflexivity | ].
    unfold Strings.strlen in *. rewrite String_length_take.
    split; [ lia | ]. split; lia.
  - rewrite upto_Returns by lia. eexists. split; [ reflexivity | ].
    unfold Strings.strlen in *. rewrite String_length_append, String_length_take. simpl.
    split; [ lia | ]. split; [ lia | ].
    intros _ _. destruct (take_is_a_prefix (Z.to_nat (maxLen - 3)) s) as [rest Hrest].
    exists (Strings.take (Z.to_nat (maxLen - 3)) s), rest.
    split; [ reflexivity | ]. split; [ exact Hrest | ].
    rewrite String_length_take. lia.
Qed.

(** X18. A negative limit makes [TruncateString] panic on every
    string, the empty one included: no length is at most a negative
    limit, and [s[:maxLen]] is out of range. *)
Theorem TruncateString_negative_limit (s : string) (maxLen : Z) :
  maxLen < 0 -> ui.TruncateString s maxLen = Panics.
Proof.
  intros Hneg. unfold ui.TruncateString, Strings.upto, Strings.strlen.
  replace (Z.of_nat (String.length s) <=? maxLen) with false
    by (symmetry; apply Z.leb_gt; lia).
  replace (maxLen <=? 3) with true by (symmetry; apply Z.leb_le; lia).
  replace (0 <=? maxLen) with false by (symmetry; apply Z.leb_gt; lia).
  reflexivity.
Qed.

(** X19. Truncating twice with the same limit is truncating once. *)
Theorem TruncateString_idempotent (s r : string) (maxLen : Z) :
  ui.TruncateString s maxLen = Returns r ->
  ui.TruncateString r maxLen = Returns r.
Proof.
  intros Hr.
  destruct (Z.lt_ge_cases maxLen 0) as [Hneg | H0].
  { rewrite (TruncateString_negative_limit s maxLen Hneg) in Hr. discriminate Hr. }
  assert (Hlen : Strings.strlen r <= maxLen).
  { revert Hr. unfold ui.TruncateString.
    destruct (Z.leb_spec (Strings.strlen s) maxLen) as [Hfit | Hlong].
    { intros H. injection H as <-. exact Hfit. }
    destruct (Z.leb_spec maxLen 3) as [Hsmall | Hbig].
    - rewrite upto_Returns by lia. intros H. injection H as <-.
      unfold Strings.strlen. rewrite String_length_take. lia.
    - rewrite upto_Returns by lia. intros H. injection H as <-.
      unfold Strings.strlen. rewrite String_length_append, String_length_take. simpl. lia. }
  unfold ui.TruncateString.
  replace (Strings.strlen r <=? maxLen) with true by (symmetry; apply Z.leb_le; exact Hlen).
  reflexivity.
Qed.

(** X20. The cells of the table never panic and never exceed their
    width: the name cell holds at most 40 bytes, the category cell at
    most 30, and a joined category list of at most 30 bytes is shown in
    full. *)
Theorem table_cells_fit (dir : Directory.t) :
  (exists name : string,
      nameCell dir = Returns name /\ Strings.strlen name <= 40
      /\ (Strings.strlen (Directory.Name dir) <= 40 -> name = Directory.Name dir))
  /\ (exists category : string,
      categoryCell dir = Returns category /\ Strings.strlen category <= 30
      /\ (Strings.strlen (Strings.Join (Directory.Categories dir) ", ") <= 30 ->
          category = Strings.Join (Directory.Categories dir) ", ")).
Proof.
  split.
  - unfold nameCell.
    destruct (TruncateString_fits (Directory.Name dir) 40) as (r & Hr & Hlen & Hfit & _);
      [ lia | ].
    exists r. split; [ exact Hr | ]. split; [ lia | exact Hfit ].
  - unfold categoryCell. cbv zeta.
    set (joined := Strings.Join (Directory.Categories dir) ", ").
    destruct (Z.ltb_spec 30 (Strings.strlen joined)) as [Hlong | Hfit].
    + destruct (TruncateString_fits joined 30) as (r & Hr & Hlen & _); [ lia | ].
      exists r. split; [ exact Hr | ]. split; lia.
    + exists joined. split; [ reflexivity | ]. split; [ exact Hfit | reflexivity ].
Qed.

(** ** The grouping of the Markdown export *)

Lemma addTo_lookup (m : gmap string (list Directory.t)) (d : Directory.t)
    (cat' cat : string) :
  default [] (export.addTo m d cat' !! cat)
  = (default [] (m !! cat) ++ (if string_dec cat' cat then [d] else []))%list.
Proof.
  unfold export.addTo. destruct (string_dec cat' cat) as [-> | Hne].
  - rewrite lookup_insert_eq. reflexivity.
  - rewrite lookup_insert_ne by exact Hne. rewrite app_nil_r. reflexivity.
Qed.

Lemma addTo_all_lookup (cats : list string) (m : gmap string (list Directory.t))
    (d : Directory.t) (cat : string) :
  default [] (fold_left (fun m c => export.addTo m d c) cats m !! cat)
  = (default [] (m !! cat) ++ repeat d (count_occ string_dec cats cat))%list.
Proof.
  revert m. induction cats as [ | c cats IH ]; intros m; simpl.
  - rewrite app_nil_r. reflexivity.
  - rewrite IH, addTo_lookup.
    destruct (string_dec c cat); simpl; rewrite <- app_assoc; reflexivity.
Qed.

Lemma group_all_lookup (ds : list Directory.t) (m : gmap string (list Directory.t))
    (cat : string) :
  default []
    (fold_left (fun m dir => fold_left (fun m c => export.addTo m dir c)
                               (Directory.Categories dir) m) ds m !! cat)
  = (default [] (m !! cat)
     ++ flat_map (fun d => repeat d (count_occ string_dec (Directory.Categories d) cat))
          ds)%list.
Proof.
  revert m. induction ds as [ | d ds IH ]; intros m; simpl.
  - rewrite app_nil_r. reflexivity.
  - rewrite IH, addTo_all_lookup, <- app_assoc. reflexivity.
Qed.

Lemma addTo_all_no_empty (cats : list string) (m : gmap string (list Directory.t))
    (d : Directory.t) :
  (forall cat l, m !! cat = Some l -> l <> []) ->
  forall cat l, fold_left (fun m c => export.addTo m d c) cats m !! cat = Some l ->
                l <> [].
Proof.
  revert m. induction cats as [ | c cats IH ]; intros m Hm; simpl; [ exact Hm | ].
  apply IH. intros cat l. unfold export.addTo.
  destruct (string_dec c cat) as [-> | Hne].
  - rewrite lookup_insert_eq. intros H. injection H as <-.
    destruct (default [] (m !! cat)); discriminate.
  - rewrite lookup_insert_ne by exact Hne. apply Hm.
Qed.

Lemma group_all_no_empty (ds : list Directory.t) (m : gmap string (list Directory.t)) :
  (forall cat l, m !! cat = Some l -> l <> []) ->
  forall cat l,
    fold_left (fun m dir => fold_left (fun m c => export.addTo m dir c)
                              (Directory.Categories dir) m) ds m !! cat = Some l ->
    l <> [].
Proof.
  revert m. induction ds as [ | d ds IH ]; intros m Hm; simpl; [ exact Hm | ].
  apply IH. apply addTo_all_no_empty. exact Hm.
Qed.

(** X21. The Markdown export groups the records by category: the
    group of a category holds, in the order of the collection, every
    record once for each time it lists that category, and a category
    nobody lists has no group.  A record with no category is therefore
    in no group and is not written, although the total printed at the
    top counts it. *)
Theorem categoryMap_groups (ds : list Directory.t) (cat : string) :
  let written :=
    flat_map (fun d => repeat d (count_occ string_dec (Directory.Categories d) cat)) ds in
  export.categoryMap ds !! cat
  = match written with [] => None | _ => Some written end
  /\ (forall d, In d written -> In d ds /\ In cat (Directory.Categories d))
  /\ (forall d, Directory.Categories d = [] -> ~ In d written).
Proof.
  cbv zeta.
  set (written := flat_map _ ds).
  assert (Hin : forall d, In d written -> In d ds /\ In cat (Directory.Categories d)).
  { intros d Hd. unfold written in Hd. apply in_flat_map in Hd.
    destruct Hd as (d' & Hd' & Hrep). apply repeat_spec in Hrep as Heq. subst d'.
    split; [ exact Hd' | ].
    apply (count_occ_In string_dec).
    destruct (count_occ string_dec (Directory.Categories d) cat);
      [ destruct Hrep | lia ]. }
  split; [ | split; [ exact Hin | ] ].
  - pose proof (group_all_lookup ds ∅ cat) as Hl.
    rewrite lookup_empty in Hl. simpl in Hl. fold written in Hl.
    pose proof (group_all_no_empty ds ∅) as Hne.
    unfold export.categoryMap.
    destruct (fold_left _ ds ∅ !! cat) as [l | ] eqn:E; simpl in Hl.
    + subst l. specialize (Hne ltac:(intros ? ?; rewrite lookup_empty; discriminate)
                             cat written E).
      destruct written; [ contradiction | reflexivity ].
    + rewrite <- Hl. reflexivity.
  - intros d Hd Hw. apply Hin in Hw. destruct Hw as [_ Hc].
    rewrite Hd in Hc. destruct Hc.
Qed.

(** ** The query sent to the remote *)

(** X22. When both score bounds are configured, the request carries
    only the upper one: the second [Set] of "domain_rating" replaces the
    first, so the minimum never reaches the server.  With the minimum
    alone the request carries it; with neither there is no
    "domain_rating" parameter. *)
Theorem upper_bound_replaces_lower_bound (o : FilterOptions.t) :
  (0 < FilterOptions.DRMin o -> 0 < FilterOptions.DRMax o ->
   api.params (Some o) !! "domain_rating"
   = Some [("lte." ++ Itoa (FilterOptions.DRMax o))%string])
  /\ (0 < FilterOptions.DRMin o -> FilterOptions.DRMax o <= 0 ->
      api.params (Some o) !! "domain_rating"
      = Some [("gte." ++ Itoa (FilterOptions.DRMin o))%string])
  /\ (FilterOptions.DRMin o <= 0 -> FilterOptions.DRMax o <= 0 ->
      api.params (Some o) !! "domain_rating" = None).
Proof.
  unfold api.params, api.Set_, api.Values. cbv zeta.
  split; [ | split ]; intros Hmin Hmax.
  - replace (0 <? FilterOptions.DRMin o) with true by (symmetry; apply Z.ltb_lt; lia).
    replace (0 <? FilterOptions.DRMax o) with true by (symmetry; apply Z.ltb_lt; lia).
    repeat match goal with
           | |- context [if ?b then _ else _] => destruct b
           end;
      rewrite ?lookup_insert_ne by discriminate; apply lookup_insert_eq.
  - replace (0 <? FilterOptions.DRMin o) with true by (symmetry; apply Z.ltb_lt; lia).
    replace (0 <? FilterOptions.DRMax o) with false by (symmetry; apply Z.ltb_ge; lia).
    repeat match goal with
           | |- context [if ?b then _ else _] => destruct b
           end;
      rewrite ?lookup_insert_ne by discriminate; apply lookup_insert_eq.
  - replace (0 <? FilterOptions.DRMin o) with false by (symmetry; apply Z.ltb_ge; lia).
    replace (0 <? FilterOptions.DRMax o) with false by (symmetry; apply Z.ltb_ge; lia).
    repeat match goal with
           | |- context [if ?b then _ else _] => destruct b
           end;
      rewrite ?lookup_insert_ne by discriminate; apply lookup_empty.
Qed.

(** X23. Every request for the collection asks for all columns of
    the active records only and names an order; the request the cache
    makes (no options) is the one made for the empty specification, and
    a sort key that is not one of the four gets the most-helpful
    order. *)
Theorem every_request_asks_for_active_records :
  (forall options : option FilterOptions.t,
      api.params options !! "select" = Some ["*"]
      /\ api.params options !! "is_active" = Some ["eq.true"]
      /\ api.params options !! "order"
         = Some [api.order (match options with
                            | Some o => FilterOptions.SortBy o
                            | None => ""
                            end)])
  /\ api.params None = api.params (Some FilterOptions.zero)
  /\ (forall key : string,
        key <> SortMostHelpful -> key <> SortHighestDR -> key <> SortNewest ->
        key <> SortAlpha -> api.order key = api.order SortMostHelpful).
Proof.
  split; [ | split ].
  - intros [o | ]; unfold api.params, api.Set_, api.Values; cbv zeta.
    + repeat split;
        repeat match goal with
               | |- context [if ?b then _ else _] => destruct b
               end;
        rewrite ?lookup_insert_ne by discriminate; apply lookup_insert_eq.
    + repeat split; rewrite ?lookup_insert_ne by discriminate; apply lookup_insert_eq.
  - vm_compute. reflexivity.
  - intros key H1 H2 H3 H4. unfold api.order.
    apply String.eqb_neq in H1, H2, H3, H4. rewrite H1, H2, H3, H4. reflexivity.
Qed.

(** * The engine at work

    The theorems above, applied to the records and worlds of [Fixture],
    and the inputs on which the code departs from the design document. *)

#[local] Existing Instance Strings.ascii_folding.
#[local] Existing Instance Fixture.library.

(** C1 (the code does not do this). [sortDirectories] has no
    statements: it hands back the slice in the order it came, whatever
    the key, and the key never changes what [FilterDirectories] returns.
    The listed records, kept in most-helpful order, are returned in that
    order under the keys "alpha", "dr" and "newest", where the contract
    of the sort stage puts them in three other orders. *)
Theorem sort_stage_is_a_no_op :
  (forall (ds : list Directory.t) (key : string), sortDirectories ds key = ds)
  /\ (forall key : string,
      FilterDirectories Fixture.listed
        (Some (FilterOptions.with_sort FilterOptions.zero key))
      = Returns Fixture.listed)
  /\ Spec.Sort Fixture.listed SortMostHelpful = Fixture.listed
  /\ Spec.Sort Fixture.listed SortAlpha
     = [Fixture.alpha; Fixture.beta; Fixture.gamma; Fixture.omega; Fixture.zeta]
  /\ Spec.Sort Fixture.listed SortHighestDR
     = [Fixture.gamma; Fixture.zeta; Fixture.beta; Fixture.omega; Fixture.alpha]
  /\ Spec.Sort Fixture.listed SortNewest
     = [Fixture.omega; Fixture.gamma; Fixture.beta; Fixture.alpha; Fixture.zeta].
Proof.
  split; [ reflexivity | ].
  split; [ intros key; rewrite sort_key_is_ignored; vm_compute; reflexivity | ].
  repeat split; vm_compute; reflexivity.
Qed.

Lemma stale_fallback_witness :
  loadFromCache Fixture.store Fixture.stale = Ok Fixture.catalog
  /\ remote Fixture.stale = Err (ErrRemote "connection refused")
  /\ isCacheValid Fixture.store Fixture.stale = false
  /\ GetDirectories Fixture.store false Fixture.stale
     = (Ok Fixture.catalog, Fixture.stale)
  /\ Sync Fixture.store Fixture.stale
     = (Some (Wrapped "failed to fetch directories"
                (ErrRemote "connection refused")), Fixture.stale).
Proof.
  assert (Hload : loadFromCache Fixture.store Fixture.stale = Ok Fixture.catalog)
    by (vm_compute; reflexivity).
  assert (Hremote : remote Fixture.stale = Err (ErrRemote "connection refused"))
    by reflexivity.
  split; [ exact Hload | ].
  split; [ exact Hremote | ].
  split; [ vm_compute; reflexivity | ].
  exact (stale_fallback Fixture.store Fixture.stale Fixture.catalog
           (ErrRemote "connection refused") Hload Hremote).
Defined.

Lemma active_flag_is_mandatory_witness :
  FilterDirectories Fixture.catalog (Some Spec.tools_or_saas_and_free)
  = Returns [Fixture.zeta; Fixture.alpha; Fixture.omega]
  /\ In Fixture.alpha [Fixture.zeta; Fixture.alpha; Fixture.omega]
  /\ Directory.IsActive Fixture.alpha = true
  /\ FilterDirectories Fixture.catalog (Some FilterOptions.zero)
     = Returns (List.filter Directory.IsActive Fixture.catalog).
Proof.
  assert (Hr : FilterDirectories Fixture.catalog (Some Spec.tools_or_saas_and_free)
               = Returns [Fixture.zeta; Fixture.alpha; Fixture.omega])
    by (vm_compute; reflexivity).
  assert (Hin : In Fixture.alpha [Fixture.zeta; Fixture.alpha; Fixture.omega])
    by (right; left; reflexivity).
  split; [ exact Hr | ].
  split; [ exact Hin | ].
  split.
  - exact (proj1 active_flag_is_mandatory Fixture.catalog
             Spec.tools_or_saas_and_free _ Fixture.alpha Hr Hin).
  - exact (proj2 active_flag_is_mandatory Fixture.catalog).
Defined.

Lemma freshness_boundary_witness :
  loadMetadata Fixture.store Fixture.stocked = Ok (CacheMetadata.Build 1000 "1.0" 6)
  /\ is_Some (files Fixture.stocked !! cacheFile Fixture.store)
  /\ (isCacheValid Fixture.store Fixture.stocked = true
      <-> time_Since Fixture.stocked 1000 <= config.CacheTTL Fixture.settings).
Proof.
  assert (Hmeta : loadMetadata Fixture.store Fixture.stocked
                  = Ok (CacheMetadata.Build 1000 "1.0" 6))
    by (vm_compute; reflexivity).
  assert (Hfile : is_Some (files Fixture.stocked !! cacheFile Fixture.store))
    by (eexists; vm_compute; reflexivity).
  split; [ exact Hmeta | ].
  split; [ exact Hfile | ].
  exact (proj1 (freshness_boundary Fixture.store Fixture.stocked
                  (CacheMetadata.Build 1000 "1.0" 6) Hmeta Hfile)).
Defined.

(** C5 as worded fails at the score bounds.  The document applies a
    bound that is configured (not zero) to every record whose score is
    known (not zero); the code applies it only when both are positive.
    The record with score -1 is returned under a minimum of 50, and the
    record with score 70 under a maximum of -5, though neither satisfies
    the conjunction of the document. *)
Lemma document_score_guard_is_not_the_codes :
  let least := FilterOptions.with_bounds FilterOptions.zero 50 0 in
  let most := FilterOptions.with_bounds FilterOptions.zero 0 (-5) in
  (FilterDirectories [Fixture.omega] (Some least) = Returns [Fixture.omega]
   /\ Spec.score_min_ok least Fixture.omega = false
   /\ Spec.matches least Fixture.omega = false)
  /\ (FilterDirectories [Fixture.zeta] (Some most) = Returns [Fixture.zeta]
      /\ Spec.score_max_ok most Fixture.zeta = false
      /\ Spec.matches most Fixture.zeta = false).
Proof.
  cbv zeta. repeat split; vm_compute; reflexivity.
Qed.

Lemma filter_is_conjunction_of_predicates_witness :
  FilterDirectories Fixture.catalog (Some Spec.tools_or_saas_and_free)
  = Returns [Fixture.zeta; Fixture.alpha; Fixture.omega]
  /\ In Fixture.omega [Fixture.zeta; Fixture.alpha; Fixture.omega]
  /\ (In Fixture.omega Fixture.catalog
      /\ Amended.matches Spec.tools_or_saas_and_free Fixture.omega = true)
  /\ FilterOptions.Limit Spec.tools_or_saas_and_free <= 0
  /\ FilterDirectories Fixture.catalog (Some Spec.tools_or_saas_and_free)
     = Returns (List.filter (Amended.matches Spec.tools_or_saas_and_free) Fixture.catalog)
  /\ (0 <= FilterOptions.DRMin (FilterOptions.with_bounds FilterOptions.zero 50 80)
      /\ 0 <= FilterOptions.DRMax (FilterOptions.with_bounds FilterOptions.zero 50 80)
      /\ 0 <= Directory.DomainRating Fixture.beta)
  /\ Amended.matches (FilterOptions.with_bounds FilterOptions.zero 50 80) Fixture.beta
     = Spec.matches (FilterOptions.with_bounds FilterOptions.zero 50 80) Fixture.beta
  /\ FilterOptions.Pricing (FilterOptions.with_bounds FilterOptions.zero 50 80) = []
  /\ Spec.label_ok (FilterOptions.Pricing (FilterOptions.with_bounds FilterOptions.zero 50 80))
       (Directory.Pricing Fixture.beta) = true.
Proof.
  assert (Hr : FilterDirectories Fixture.catalog (Some Spec.tools_or_saas_and_free)
               = Returns [Fixture.zeta; Fixture.alpha; Fixture.omega])
    by (vm_compute; reflexivity).
  assert (Hin : In Fixture.omega [Fixture.zeta; Fixture.alpha; Fixture.omega])
    by (right; right; left; reflexivity).
  assert (Hl : FilterOptions.Limit Spec.tools_or_saas_and_free <= 0)
    by (simpl; lia).
  assert (Hmin : 0 <= FilterOptions.DRMin (FilterOptions.with_bounds FilterOptions.zero 50 80))
    by (simpl; lia).
  assert (Hmax : 0 <= FilterOptions.DRMax (FilterOptions.with_bounds FilterOptions.zero 50 80))
    by (simpl; lia).
  assert (Hd : 0 <= Directory.DomainRating Fixture.beta)
    by (simpl; lia).
  assert (Hp : FilterOptions.Pricing (FilterOptions.with_bounds FilterOptions.zero 50 80) = [])
    by reflexivity.
  split; [ exact Hr | ].
  split; [ exact Hin | ].
  split.
  { exact (proj1 filter_is_conjunction_of_predicates Fixture.catalog
             Spec.tools_or_saas_and_free _ Fixture.omega Hr Hin). }
  split; [ exact Hl | ].
  split.
  { exact (proj1 (proj2 filter_is_conjunction_of_predicates) Fixture.catalog
             Spec.tools_or_saas_and_free Hl). }
  split; [ exact (conj Hmin (conj Hmax Hd)) | ].
  split.
  { exact (proj1 (proj2 (proj2 filter_is_conjunction_of_predicates))
             (FilterOptions.with_bounds FilterOptions.zero 50 80) Fixture.beta
             Hmin Hmax Hd). }
  split; [ exact Hp | ].
  exact (proj1 (proj2 (proj2
             (proj2 (proj2 (proj2 (proj2 filter_is_conjunction_of_predicates)))
                (FilterOptions.with_bounds FilterOptions.zero 50 80) Fixture.beta))) Hp).
Defined.

(** C6 as worded fails where [Offset + Limit] leaves the range of
    [int], and at negative offsets: five survivors, offset 1 and the
    largest limit should give the last four records, but the sum wraps
    to a negative upper index and the slice expression panics; offset -1
    panics as well. *)
Lemma pagination_contract_fails_on_overflow :
  let o := FilterOptions.with_page FilterOptions.zero GoInt.MaxInt 1 in
  let filtered := sortDirectories (filterLoop o Fixture.listed) (FilterOptions.SortBy o) in
  GoInt.add (FilterOptions.Offset o) (FilterOptions.Limit o) = GoInt.MinInt
  /\ Spec.Paginate filtered (FilterOptions.Limit o) (FilterOptions.Offset o)
     = [Fixture.alpha; Fixture.beta; Fixture.gamma; Fixture.omega]
  /\ FilterDirectories Fixture.listed (Some o) = Panics
  /\ FilterDirectories Fixture.listed (Some o)
     <> Returns (Spec.Paginate filtered (FilterOptions.Limit o) (FilterOptions.Offset o))
  /\ FilterDirectories Fixture.listed
       (Some (FilterOptions.with_page FilterOptions.zero 10 (-1))) = Panics.
Proof.
  cbv zeta. split; [ vm_compute; reflexivity | ].
  split; [ vm_compute; reflexivity | ].
  assert (Hp : FilterDirectories Fixture.listed
                 (Some (FilterOptions.with_page FilterOptions.zero GoInt.MaxInt 1))
               = Panics) by (vm_compute; reflexivity).
  split; [ exact Hp | ].
  split; [ rewrite Hp; discriminate | vm_compute; reflexivity ].
Qed.

Lemma pagination_follows_the_contract_witness :
  let o3 := FilterOptions.with_page FilterOptions.zero 10 3 in
  let o5 := FilterOptions.with_page FilterOptions.zero 10 5 in
  (0 <= FilterOptions.Offset o3
   /\ FilterOptions.Offset o3 + FilterOptions.Limit o3 <= GoInt.MaxInt)
  /\ FilterDirectories Fixture.listed (Some o3) = Returns [Fixture.gamma; Fixture.omega]
  /\ length (sortDirectories (filterLoop o5 Fixture.listed) (FilterOptions.SortBy o5))
     = 5%nat
  /\ FilterDirectories Fixture.listed (Some o5) = Returns [].
Proof.
  cbv zeta.
  assert (Hpre : 0 <= 3 /\ 3 + 10 <= GoInt.MaxInt)
    by (unfold GoInt.MaxInt; lia).
  assert (Hlen : length (sortDirectories
                           (filterLoop (FilterOptions.with_page FilterOptions.zero 10 5)
                              Fixture.listed) "") = 5%nat)
    by (vm_compute; reflexivity).
  split; [ exact Hpre | ].
  split.
  - exact (proj1 (pagination_follows_the_contract Fixture.listed
                    (FilterOptions.with_page FilterOptions.zero 10 3))
             (or_intror (or_intror Hpre))).
  - split; [ exact Hlen | ].
    exact (proj1 (proj2 (pagination_follows_the_contract Fixture.listed
                           (FilterOptions.with_page FilterOptions.zero 10 5))
                    Hlen eq_refl) eq_refl).
Defined.

(** C7 as worded fails in three ways.  A nonzero score that is
    negative is not held to the bounds: the record with score -1 is
    returned under a minimum of 50.  A configured bound that is negative
    is not applied: the record with score 70 is returned under a maximum
    of -5.  And under pagination a record with score zero that is
    returned without the bounds need not be returned with them: of the
    records with scores 10 and 0, the page of one record at offset 1 is
    the second without bounds and empty under a minimum of 50, since the
    bounds change which records come before it. *)
Lemma score_bounds_beyond_the_wording :
  let least := FilterOptions.with_bounds FilterOptions.zero 50 0 in
  let most := FilterOptions.with_bounds FilterOptions.zero 0 (-5) in
  let paged := FilterOptions.with_page least 1 1 in
  (FilterDirectories [Fixture.omega] (Some least) = Returns [Fixture.omega]
   /\ Directory.DomainRating Fixture.omega <> 0
   /\ FilterOptions.DRMin least <> 0
   /\ ~ FilterOptions.DRMin least <= Directory.DomainRating Fixture.omega)
  /\ (FilterDirectories [Fixture.zeta] (Some most) = Returns [Fixture.zeta]
      /\ Directory.DomainRating Fixture.zeta <> 0
      /\ FilterOptions.DRMax most <> 0
      /\ ~ Directory.DomainRating Fixture.zeta <= FilterOptions.DRMax most)
  /\ (Directory.DomainRating Fixture.alpha = 0
      /\ FilterDirectories [Fixture.modest; Fixture.alpha]
           (Some (FilterOptions.with_bounds paged 0 0)) = Returns [Fixture.alpha]
      /\ FilterDirectories [Fixture.modest; Fixture.alpha] (Some paged) = Returns []).
Proof.
  cbv zeta.
  split; [ | split ].
  - split; [ vm_compute; reflexivity | ].
    split; [ discriminate | ].
    split; [ discriminate | ].
    simpl. lia.
  - split; [ vm_compute; reflexivity | ].
    split; [ discriminate | ].
    split; [ discriminate | ].
    simpl. lia.
  - split; [ reflexivity | ].
    split; vm_compute; reflexivity.
Qed.

Lemma score_bounds_spare_unknown_scores_witness :
  let o := FilterOptions.with_bounds FilterOptions.zero 50 0 in
  filterLoop o Fixture.catalog
  = [Fixture.zeta; Fixture.alpha; Fixture.gamma; Fixture.omega]
  /\ filterLoop (FilterOptions.with_bounds o 0 0) Fixture.catalog
     = [Fixture.zeta; Fixture.alpha; Fixture.beta; Fixture.gamma; Fixture.omega]
  /\ Directory.DomainRating Fixture.alpha <= 0
  /\ (In Fixture.alpha (filterLoop o Fixture.catalog)
      <-> In Fixture.alpha (filterLoop (FilterOptions.with_bounds o 0 0) Fixture.catalog))
  /\ Directory.DomainRating Fixture.omega <= 0
  /\ (In Fixture.omega (filterLoop o Fixture.catalog)
      <-> In Fixture.omega (filterLoop (FilterOptions.with_bounds o 0 0) Fixture.catalog))
  /\ 0 < Directory.DomainRating Fixture.beta
  /\ (In Fixture.beta (filterLoop o Fixture.catalog)
      <-> In Fixture.beta (filterLoop (FilterOptions.with_bounds o 0 0) Fixture.catalog)
          /\ (0 < FilterOptions.DRMin o ->
              FilterOptions.DRMin o <= Directory.DomainRating Fixture.beta)
          /\ (0 < FilterOptions.DRMax o ->
              Directory.DomainRating Fixture.beta <= FilterOptions.DRMax o))
  /\ (FilterOptions.DRMin (FilterOptions.with_bounds FilterOptions.zero (-3) (-5)) <= 0
      /\ FilterOptions.DRMax (FilterOptions.with_bounds FilterOptions.zero (-3) (-5)) <= 0)
  /\ filterLoop (FilterOptions.with_bounds FilterOptions.zero (-3) (-5)) Fixture.catalog
     = filterLoop (FilterOptions.with_bounds
                     (FilterOptions.with_bounds FilterOptions.zero (-3) (-5)) 0 0)
         Fixture.catalog
  /\ FilterOptions.Limit o <= 0
  /\ FilterDirectories Fixture.catalog (Some o) = Returns (filterLoop o Fixture.catalog).
Proof.
  cbv zeta.
  pose proof (score_bounds_spare_unknown_scores Fixture.catalog
                (FilterOptions.with_bounds FilterOptions.zero 50 0))
    as [Hzero [Hpos [_ [_ Hall]]]].
  pose proof (score_bounds_spare_unknown_scores Fixture.catalog
                (FilterOptions.with_bounds FilterOptions.zero (-3) (-5)))
    as [_ [_ [Hoff _]]].
  assert (Ha : Directory.DomainRating Fixture.alpha <= 0) by (simpl; lia).
  assert (Ho : Directory.DomainRating Fixture.omega <= 0) by (simpl; lia).
  assert (Hb : 0 < Directory.DomainRating Fixture.beta) by (simpl; lia).
  assert (Hmin : FilterOptions.DRMin
                   (FilterOptions.with_bounds FilterOptions.zero (-3) (-5)) <= 0)
    by (simpl; lia).
  assert (Hmax : FilterOptions.DRMax
                   (FilterOptions.with_bounds FilterOptions.zero (-3) (-5)) <= 0)
    by (simpl; lia).
  assert (Hl : FilterOptions.Limit (FilterOptions.with_bounds FilterOptions.zero 50 0) <= 0)
    by (simpl; lia).
  split; [ vm_compute; reflexivity | ].
  split; [ vm_compute; reflexivity | ].
  split; [ exact Ha | ].
  split; [ exact (Hzero Fixture.alpha Ha) | ].
  split; [ exact Ho | ].
  split; [ exact (Hzero Fixture.omega Ho) | ].
  split; [ exact Hb | ].
  split; [ exact (Hpos Fixture.beta Hb) | ].
  split; [ exact (conj Hmin Hmax) | ].
  split; [ exact (Hoff Hmin Hmax) | ].
  split; [ exact Hl | ].
  exact (Hall Hl).
Defined.



Lemma metadata_needs_collection_witness :
  files Fixture.orphaned !! cacheFile Fixture.store = None
  /\ is_Some (files Fixture.orphaned !! metaFile Fixture.store)
  /\ isCacheValid Fixture.store Fixture.orphaned = false
  /\ saveToCache Fixture.store Fixture.catalog Fixture.locked
     = (Some (Wrapped "failed to write cache file"
                (ErrPermission (cacheFile Fixture.store))), Fixture.locked)
  /\ writes Fixture.stocked = [cacheFile Fixture.store; metaFile Fixture.store].
Proof.
  assert (Hnone : files Fixture.orphaned !! cacheFile Fixture.store = None)
    by (vm_compute; reflexivity).
  split; [ exact Hnone | ].
  split; [ eexists; vm_compute; reflexivity | ].
  split; [ exact (proj1 metadata_needs_collection Fixture.store Fixture.orphaned Hnone) | ].
  split; vm_compute; reflexivity.
Defined.

(** C10 as worded fails for a non-negative offset when
    [Offset + Limit] leaves the range of [int]: with two records in
    reach, offset 1 and the largest limit, the upper index wraps to the
    smallest [int], is not clamped, and the slice expression panics. *)
Lemma pagination_panics_on_overflow :
  let o := FilterOptions.with_page FilterOptions.zero GoInt.MaxInt 1 in
  0 <= FilterOptions.Offset o
  /\ GoInt.in_range (FilterOptions.Offset o)
  /\ GoInt.in_range (FilterOptions.Limit o)
  /\ FilterDirectories [Fixture.zeta; Fixture.alpha] (Some o) = Panics.
Proof.
  cbv zeta. unfold GoInt.in_range, GoInt.MinInt, GoInt.MaxInt. simpl.
  repeat split; try lia. 
Qed.

Lemma pagination_is_total_within_int_range_witness :
  let o := FilterOptions.with_page FilterOptions.zero 10 3 in
  let bad := FilterOptions.with_page FilterOptions.zero 10 (-1) in
  0 <= FilterOptions.Offset o
  /\ FilterOptions.Offset o + FilterOptions.Limit o <= GoInt.MaxInt
  /\ (exists r : list Directory.t,
        FilterDirectories Fixture.listed (Some o) = Returns r
        /\ (0 < FilterOptions.Limit o ->
            FilterOptions.Offset o < len (filterLoop o Fixture.listed) ->
            let start := FilterOptions.Offset o in
            let end_ := Z.min (FilterOptions.Offset o + FilterOptions.Limit o)
                              (len (filterLoop o Fixture.listed)) in
            0 <= start /\ start <= end_ /\ end_ <= len (filterLoop o Fixture.listed)
            /\ slice (filterLoop o Fixture.listed) start end_ = Returns r))
  /\ 0 < FilterOptions.Limit bad
  /\ FilterOptions.Offset bad < 0
  /\ FilterDirectories Fixture.listed (Some bad) = Panics.
Proof.
  cbv zeta.
  assert (H0 : 0 <= FilterOptions.Offset (FilterOptions.with_page FilterOptions.zero 10 3))
    by (simpl; lia).
  assert (Hmax : FilterOptions.Offset (FilterOptions.with_page FilterOptions.zero 10 3)
                 + FilterOptions.Limit (FilterOptions.with_page FilterOptions.zero 10 3)
                 <= GoInt.MaxInt)
    by (unfold GoInt.MaxInt; simpl; lia).
  assert (Hl : 0 < FilterOptions.Limit (FilterOptions.with_page FilterOptions.zero 10 (-1)))
    by (simpl; lia).
  assert (Hneg : FilterOptions.Offset (FilterOptions.with_page FilterOptions.zero 10 (-1)) < 0)
    by (simpl; lia).
  split; [ exact H0 | ].
  split; [ exact Hmax | ].
  split; [ exact (proj1 pagination_is_total_within_int_range Fixture.listed _ H0 Hmax) | ].
  split; [ exact Hl | ].
  split; [ exact Hneg | ].
  exact (proj2 pagination_is_total_within_int_range Fixture.listed _ Hl Hneg).
Defined.

(** ** The further properties on the same records and worlds *)

#[local] Existing Instance Fixture.printing.

Lemma first_page_is_a_prefix_witness :
  let o := FilterOptions.with_page FilterOptions.zero 2 0 in
  FilterOptions.Offset o = 0
  /\ 0 < FilterOptions.Limit o
  /\ FilterOptions.Limit o <= GoInt.MaxInt
  /\ FilterDirectories Fixture.catalog (Some o)
     = Returns (firstn (Z.to_nat (FilterOptions.Limit o)) (filterLoop o Fixture.catalog))
  /\ firstn (Z.to_nat (FilterOptions.Limit o)) (filterLoop o Fixture.catalog)
     = [Fixture.zeta; Fixture.alpha].
Proof.
  cbv zeta.
  assert (H0 : FilterOptions.Offset (FilterOptions.with_page FilterOptions.zero 2 0) = 0)
    by reflexivity.
  assert (H1 : 0 < FilterOptions.Limit (FilterOptions.with_page FilterOptions.zero 2 0))
    by (simpl; lia).
  assert (H2 : FilterOptions.Limit (FilterOptions.with_page FilterOptions.zero 2 0)
               <= GoInt.MaxInt)
    by (unfold GoInt.MaxInt; simpl; lia).
  split; [ exact H0 | ]. split; [ exact H1 | ]. split; [ exact H2 | ].
  split; [ exact (first_page_is_a_prefix Fixture.catalog _ H0 H1 H2) | ].
  vm_compute. reflexivity.
Defined.

Lemma result_is_an_ordered_selection_witness :
  let o := FilterOptions.with_page FilterOptions.zero 2 1 in
  GoInt.in_range (FilterOptions.Limit o)
  /\ GoInt.in_range (FilterOptions.Offset o)
  /\ FilterDirectories Fixture.catalog (Some o) = Returns [Fixture.alpha; Fixture.beta]
  /\ sublist [Fixture.alpha; Fixture.beta] Fixture.catalog
  /\ (0 < FilterOptions.Limit o ->
      len [Fixture.alpha; Fixture.beta] <= FilterOptions.Limit o).
Proof.
  cbv zeta.
  assert (H1 : GoInt.in_range
                 (FilterOptions.Limit (FilterOptions.with_page FilterOptions.zero 2 1)))
    by (unfold GoInt.in_range, GoInt.MinInt, GoInt.MaxInt; simpl; lia).
  assert (H2 : GoInt.in_range
                 (FilterOptions.Offset (FilterOptions.with_page FilterOptions.zero 2 1)))
    by (unfold GoInt.in_range, GoInt.MinInt, GoInt.MaxInt; simpl; lia).
  assert (H3 : FilterDirectories Fixture.catalog
                 (Some (FilterOptions.with_page FilterOptions.zero 2 1))
               = Returns [Fixture.alpha; Fixture.beta])
    by (vm_compute; reflexivity).
  split; [ exact H1 | ]. split; [ exact H2 | ]. split; [ exact H3 | ].
  exact (result_is_an_ordered_selection Fixture.catalog _ _ H1 H2 H3).
Defined.

Lemma consecutive_pages_concatenate_witness :
  0 <= 0 /\ 0 < 2 /\ 0 < 2 /\ 0 + 2 + 2 <= GoInt.MaxInt
  /\ exists p1 p2 : list Directory.t,
      FilterDirectories Fixture.catalog
        (Some (FilterOptions.with_page FilterOptions.zero 2 0)) = Returns p1
      /\ FilterDirectories Fixture.catalog
           (Some (FilterOptions.with_page FilterOptions.zero 2 (0 + 2))) = Returns p2
      /\ FilterDirectories Fixture.catalog
           (Some (FilterOptions.with_page FilterOptions.zero (2 + 2) 0))
         = Returns (p1 ++ p2)%list.
Proof.
  assert (Ha : 0 <= 0) by lia.
  assert (Hk : 0 < 2) by lia.
  assert (Hmax : 0 + 2 + 2 <= GoInt.MaxInt) by (unfold GoInt.MaxInt; lia).
  split; [ exact Ha | ]. split; [ exact Hk | ]. split; [ exact Hk | ].
  split; [ exact Hmax | ].
  exact (consecutive_pages_concatenate Fixture.catalog FilterOptions.zero 0 2 2
           Ha Hk Hk Hmax).
Defined.

Lemma filtering_is_per_record_witness :
  FilterOptions.Limit FilterOptions.zero <= 0
  /\ exists r1 r2 : list Directory.t,
      FilterDirectories [Fixture.zeta; Fixture.delta] (Some FilterOptions.zero) = Returns r1
      /\ FilterDirectories [Fixture.alpha] (Some FilterOptions.zero) = Returns r2
      /\ FilterDirectories ([Fixture.zeta; Fixture.delta] ++ [Fixture.alpha])
           (Some FilterOptions.zero) = Returns (r1 ++ r2)%list
      /\ FilterDirectories r1 (Some FilterOptions.zero) = Returns r1.
Proof.
  assert (Hl : FilterOptions.Limit FilterOptions.zero <= 0) by (simpl; lia).
  split; [ exact Hl | ].
  exact (filtering_is_per_record [Fixture.zeta; Fixture.delta] [Fixture.alpha]
           FilterOptions.zero Hl).
Defined.

Lemma requested_labels_are_sets_witness :
  FilterDirectories Fixture.catalog (Some Fixture.tidy)
  = FilterDirectories Fixture.catalog (Some Fixture.untidy)
  /\ FilterDirectories Fixture.catalog (Some Fixture.untidy)
     = Returns [Fixture.zeta; Fixture.alpha; Fixture.omega].
Proof.
  split; [ | vm_compute; reflexivity ].
  apply (requested_labels_are_sets Fixture.catalog Fixture.tidy Fixture.untidy);
    try reflexivity; intros x; simpl; tauto.
Defined.

Lemma Clear_removes_both_files_witness :
  (cacheFile Fixture.store ∉ readonly Fixture.stocked)
  /\ (metaFile Fixture.store ∉ readonly Fixture.stocked)
  /\ is_Some (files Fixture.stocked !! cacheFile Fixture.store)
  /\ exists w' : World,
      Clear Fixture.store Fixture.stocked = (None, w')
      /\ files w'
         = delete (metaFile Fixture.store)
             (delete (cacheFile Fixture.store) (files Fixture.stocked))
      /\ files w' !! cacheFile Fixture.store = None
      /\ files w' !! metaFile Fixture.store = None
      /\ (forall p, p <> cacheFile Fixture.store -> p <> metaFile Fixture.store ->
                    files w' !! p = files Fixture.stocked !! p)
      /\ writes w' = writes Fixture.stocked.
Proof.
  assert (Hc : cacheFile Fixture.store ∉ readonly Fixture.stocked)
    by (vm_compute; set_solver).
  assert (Hm : metaFile Fixture.store ∉ readonly Fixture.stocked)
    by (vm_compute; set_solver).
  split; [ exact Hc | ]. split; [ exact Hm | ].
  split; [ eexists; vm_compute; reflexivity | ].
  exact (Clear_removes_both_files Fixture.store Fixture.stocked Hc Hm).
Defined.

Lemma cleared_cache_is_gone_witness :
  Clear Fixture.store Fixture.stale = (None, Fixture.cleared)
  /\ remote Fixture.stale = Err (ErrRemote "connection refused")
  /\ isCacheValid Fixture.store Fixture.cleared = false
  /\ GetDirectories Fixture.store false Fixture.cleared
     = (Err (Wrapped "failed to fetch directories" (ErrRemote "connection refused")),
        Fixture.cleared)
  /\ Clear Fixture.store Fixture.cleared = (None, Fixture.cleared).
Proof.
  assert (Hclear : Clear Fixture.store Fixture.stale = (None, Fixture.cleared))
    by (vm_compute; reflexivity).
  assert (Hr : remote Fixture.stale = Err (ErrRemote "connection refused"))
    by reflexivity.
  pose proof (cleared_cache_is_gone Fixture.store Fixture.stale Fixture.cleared Hclear)
    as (Hvalid & _ & Hget & Hagain).
  split; [ exact Hclear | ]. split; [ exact Hr | ]. split; [ exact Hvalid | ].
  split; [ exact (Hget _ false Hr) | exact Hagain ].
Defined.

Lemma Clear_stops_at_the_first_failure_witness :
  is_Some (files Fixture.sealed !! cacheFile Fixture.store)
  /\ (cacheFile Fixture.store ∈ readonly Fixture.sealed)
  /\ Clear Fixture.store Fixture.sealed
     = (Some (Wrapped "failed to remove cache file"
                (ErrPermission (cacheFile Fixture.store))), Fixture.sealed)
  /\ (cacheFile Fixture.store ∉ readonly Fixture.half_sealed)
  /\ (metaFile Fixture.store ∈ readonly Fixture.half_sealed)
  /\ exists w' : World,
      Clear Fixture.store Fixture.half_sealed
      = (Some (Wrapped "failed to remove metadata file"
                 (ErrPermission (metaFile Fixture.store))), w')
      /\ files w' !! cacheFile Fixture.store = None
      /\ files w' !! metaFile Fixture.store
         = files Fixture.half_sealed !! metaFile Fixture.store
      /\ isCacheValid Fixture.store w' = false.
Proof.
  assert (H1 : is_Some (files Fixture.sealed !! cacheFile Fixture.store))
    by (eexists; vm_compute; reflexivity).
  assert (H2 : cacheFile Fixture.store ∈ readonly Fixture.sealed)
    by (vm_compute; set_solver).
  assert (H3 : cacheFile Fixture.store ∉ readonly Fixture.half_sealed)
    by (vm_compute; set_solver).
  assert (H4 : cacheFile Fixture.store <> metaFile Fixture.store) by discriminate.
  assert (H5 : is_Some (files Fixture.half_sealed !! metaFile Fixture.store))
    by (eexists; vm_compute; reflexivity).
  assert (H6 : metaFile Fixture.store ∈ readonly Fixture.half_sealed)
    by (vm_compute; set_solver).
  split; [ exact H1 | ]. split; [ exact H2 | ].
  split; [ exact (proj1 (Clear_stops_at_the_first_failure Fixture.store Fixture.sealed)
                    H1 H2) | ].
  split; [ exact H3 | ]. split; [ exact H6 | ].
  exact (proj2 (Clear_stops_at_the_first_failure Fixture.store Fixture.half_sealed)
           H3 H4 H5 H6).
Defined.

Lemma fixture_metadata_reads_back (t : Time) (n : Z) :
  t = 1000 -> n = 6 -> metadata_reads_back (CacheMetadata.Build t "1.0" n).
Proof.
  intros -> ->. split.
  - intros text Ht. vm_compute in Ht. injection Ht as <-. vm_compute. reflexivity.
  - intros v Hv. vm_compute in Hv. injection Hv as <-. vm_compute. reflexivity.
Defined.

Lemma saveMetadata_then_loadMetadata_witness :
  let m := CacheMetadata.Build 1000 "1.0" 6 in
  metadata_reads_back m
  /\ fst (saveMetadata Fixture.store m Fixture.offline) = None
  /\ loadMetadata Fixture.store (snd (saveMetadata Fixture.store m Fixture.offline))
     = Ok m.
Proof.
  cbv zeta.
  assert (Hlib : metadata_reads_back (CacheMetadata.Build 1000 "1.0" 6))
    by (apply fixture_metadata_reads_back; reflexivity).
  assert (Hsave : saveMetadata Fixture.store (CacheMetadata.Build 1000 "1.0" 6)
                    Fixture.offline
                  = (None, snd (saveMetadata Fixture.store
                                  (CacheMetadata.Build 1000 "1.0" 6) Fixture.offline)))
    by (vm_compute; reflexivity).
  split; [ exact Hlib | ]. split; [ vm_compute; reflexivity | ].
  exact (saveMetadata_then_loadMetadata Fixture.store _ Fixture.offline _ Hlib Hsave).
Defined.

Lemma GetCacheInfo_reports_the_metadata_witness :
  loadMetadata Fixture.store Fixture.orphaned = Ok (CacheMetadata.Build 1000 "1.0" 6)
  /\ files Fixture.orphaned !! cacheFile Fixture.store = None
  /\ snd (GetCacheInfo Fixture.store Fixture.orphaned) = None
  /\ fst (GetCacheInfo Fixture.store Fixture.orphaned) !! "cached" = Some (AnyBool true)
  /\ fst (GetCacheInfo Fixture.store Fixture.orphaned) !! "valid" = Some (AnyBool false)
  /\ fst (GetCacheInfo Fixture.store Fixture.orphaned) !! "count" = Some (AnyInt 6)
  /\ fst (GetCacheInfo Fixture.store Fixture.offline) !! "cached" = Some (AnyBool false).
Proof.
  assert (Hm : loadMetadata Fixture.store Fixture.orphaned
               = Ok (CacheMetadata.Build 1000 "1.0" 6))
    by (vm_compute; reflexivity).
  assert (Hnone : files Fixture.orphaned !! cacheFile Fixture.store = None)
    by (vm_compute; reflexivity).
  pose proof (GetCacheInfo_reports_the_metadata Fixture.store Fixture.orphaned)
    as (Herr & _ & _ & _ & Horphan).
  destruct (Horphan _ Hm Hnone) as (Hcached & Hvalid & Hcount).
  split; [ exact Hm | ]. split; [ exact Hnone | ]. split; [ exact Herr | ].
  split; [ exact Hcached | ]. split; [ exact Hvalid | ]. split; [ exact Hcount | ].
  apply (proj1 (proj2 (proj2 (GetCacheInfo_reports_the_metadata Fixture.store
                                Fixture.offline)))).
  eexists. vm_compute. reflexivity.
Defined.

Lemma report_after_a_successful_save_witness :
  let monthLater := now Fixture.online + 30 * 86400000000000 in
  let report (t : Time) :=
    fst (GetCacheInfo Fixture.store (later Fixture.stocked t (Ok [Fixture.loner]))) in
  metadata_reads_back
    (CacheMetadata.Build (now Fixture.online) "1.0" (len Fixture.catalog))
  /\ saveToCache Fixture.store Fixture.catalog Fixture.online = (None, Fixture.stocked)
  /\ report (now Fixture.online + 500) !! "cached" = Some (AnyBool true)
  /\ report (now Fixture.online + 500) !! "count" = Some (AnyInt (len Fixture.catalog))
  /\ report (now Fixture.online + 500) !! "last_updated"
     = Some (AnyTime (now Fixture.online))
  /\ (0 <= now Fixture.online + 500 - now Fixture.online
      /\ now Fixture.online + 500 - now Fixture.online
         <= config.CacheTTL (cfg Fixture.store))
  /\ report (now Fixture.online + 500) !! "valid" = Some (AnyBool true)
  /\ (GoInt.in_range (monthLater - now Fixture.online)
      /\ config.CacheTTL (cfg Fixture.store) < monthLater - now Fixture.online)
  /\ report monthLater !! "valid" = Some (AnyBool false).
Proof.
  cbv zeta.
  assert (Hlib : metadata_reads_back
                   (CacheMetadata.Build (now Fixture.online) "1.0" (len Fixture.catalog)))
    by (apply fixture_metadata_reads_back; reflexivity).
  assert (Hsave : saveToCache Fixture.store Fixture.catalog Fixture.online
                  = (None, Fixture.stocked))
    by (vm_compute; reflexivity).
  assert (H0 : 0 <= now Fixture.online + 500 - now Fixture.online) by lia.
  assert (H1 : now Fixture.online + 500 - now Fixture.online
               <= config.CacheTTL (cfg Fixture.store))
    by (simpl; lia).
  assert (H2 : GoInt.in_range
                 (now Fixture.online + 30 * 86400000000000 - now Fixture.online))
    by (unfold GoInt.in_range, GoInt.MinInt, GoInt.MaxInt; lia).
  assert (H3 : config.CacheTTL (cfg Fixture.store)
               < now Fixture.online + 30 * 86400000000000 - now Fixture.online)
    by (simpl; lia).
  pose proof (report_after_a_successful_save Fixture.store Fixture.catalog
                Fixture.online Fixture.stocked (now Fixture.online + 500)
                (Ok [Fixture.loner]) Hlib Hsave)
    as [Hcached [Hcount [Hlast [_ [Hfresh _]]]]].
  pose proof (report_after_a_successful_save Fixture.store Fixture.catalog
                Fixture.online Fixture.stocked
                (now Fixture.online + 30 * 86400000000000)
                (Ok [Fixture.loner]) Hlib Hsave)
    as [_ [_ [_ [_ [_ Hstale]]]]].
  split; [ exact Hlib | ]. split; [ exact Hsave | ].
  split; [ exact Hcached | ]. split; [ exact Hcount | ]. split; [ exact Hlast | ].
  split; [ exact (conj H0 H1) | ]. split; [ exact (Hfresh H0 H1) | ].
  split; [ exact (conj H2 H3) | ].
  exact (Hstale H2 H3).
Defined.

Lemma valid_cache_is_served_without_the_remote_witness :
  isCacheValid Fixture.store Fixture.stocked = true
  /\ loadFromCache Fixture.store Fixture.stocked = Ok Fixture.catalog
  /\ GetDirectories Fixture.store false
       (later Fixture.stocked (now Fixture.stocked) (Ok [Fixture.loner]))
     = (Ok Fixture.catalog,
        later Fixture.stocked (now Fixture.stocked) (Ok [Fixture.loner])).
Proof.
  assert (Hv : isCacheValid Fixture.store Fixture.stocked = true)
    by (vm_compute; reflexivity).
  assert (Hl : loadFromCache Fixture.store Fixture.stocked = Ok Fixture.catalog)
    by (vm_compute; reflexivity).
  split; [ exact Hv | ]. split; [ exact Hl | ].
  exact (valid_cache_is_served_without_the_remote Fixture.store Fixture.stocked
           Fixture.catalog (Ok [Fixture.loner]) Hv Hl).
Defined.

Lemma refresh_returns_what_the_remote_sent_witness :
  remote Fixture.locked = Ok Fixture.catalog
  /\ fst (GetDirectories Fixture.store true Fixture.locked) = Ok Fixture.catalog
  /\ fst (saveToCache Fixture.store Fixture.catalog Fixture.locked) <> None
  /\ fst (Sync Fixture.store Fixture.locked) <> None.
Proof.
  assert (Hr : remote Fixture.locked = Ok Fixture.catalog) by reflexivity.
  pose proof (refresh_returns_what_the_remote_sent Fixture.store Fixture.locked
                Fixture.catalog Hr) as (Hget & _ & _ & Hsync).
  assert (Hfail : fst (saveToCache Fixture.store Fixture.catalog Fixture.locked) <> None)
    by (vm_compute; discriminate).
  split; [ exact Hr | ].
  split; [ rewrite Hget; reflexivity | ].
  split; [ exact Hfail | ].
  intros Hnone. apply Hfail. apply Hsync. exact Hnone.
Defined.


Lemma no_data_anywhere_is_an_error_witness :
  loadFromCache Fixture.store Fixture.offline
  = Err (Wrapped "failed to read cache file" (ErrNotExist (cacheFile Fixture.store)))
  /\ remote Fixture.offline = Err (ErrRemote "connection refused")
  /\ GetDirectories Fixture.store false Fixture.offline
     = (Err (Wrapped "failed to fetch directories" (ErrRemote "connection refused")),
        Fixture.offline).
Proof.
  assert (Hl : loadFromCache Fixture.store Fixture.offline
               = Err (Wrapped "failed to read cache file"
                        (ErrNotExist (cacheFile Fixture.store))))
    by (vm_compute; reflexivity).
  assert (Hr : remote Fixture.offline = Err (ErrRemote "connection refused"))
    by reflexivity.
  split; [ exact Hl | ]. split; [ exact Hr | ].
  exact (no_data_anywhere_is_an_error Fixture.store Fixture.offline _ _ false Hl Hr).
Defined.

Lemma only_the_cache_files_are_touched_witness :
  let p := "/home/u/.config/awesome-directories/config.yaml" in
  p <> cacheFile Fixture.store
  /\ p <> metaFile Fixture.store
  /\ files (snd (GetDirectories Fixture.store true Fixture.online)) !! p
     = files Fixture.online !! p
  /\ files (snd (Clear Fixture.store Fixture.stocked)) !! p
     = files Fixture.stocked !! p.
Proof.
  cbv zeta.
  assert (H1 : "/home/u/.config/awesome-directories/config.yaml"
               <> cacheFile Fixture.store) by discriminate.
  assert (H2 : "/home/u/.config/awesome-directories/config.yaml"
               <> metaFile Fixture.store) by discriminate.
  split; [ exact H1 | ]. split; [ exact H2 | ].
  split.
  - exact (proj1 (proj1 (only_the_cache_files_are_touched Fixture.store Fixture.online
                           true _ H1 H2))).
  - exact (proj1 (proj2 (proj2 (only_the_cache_files_are_touched Fixture.store
                                  Fixture.stocked true _ H1 H2)))).
Defined.

Lemma TruncateString_fits_witness :
  0 <= 10
  /\ ui.TruncateString "awesome directories" 10 = Returns "awesome..."
  /\ exists r : string,
      ui.TruncateString "awesome directories" 10 = Returns r
      /\ Strings.strlen r = Z.min (Strings.strlen "awesome directories") 10
      /\ (Strings.strlen "awesome directories" <= 10 -> r = "awesome directories")
      /\ (3 < 10 -> 10 < Strings.strlen "awesome directories" ->
          exists head rest : string,
            r = (head ++ "...")%string
            /\ "awesome directories" = (head ++ rest)%string
            /\ Strings.strlen head = 10 - 3).
Proof.
  assert (H0 : 0 <= 10) by lia.
  split; [ exact H0 | ]. split; [ vm_compute; reflexivity | ].
  exact (TruncateString_fits "awesome directories" 10 H0).
Defined.

Lemma TruncateString_negative_limit_witness :
  -1 < 0 /\ ui.TruncateString "" (-1) = Panics.
Proof.
  assert (H : -1 < 0) by lia.
  split; [ exact H | exact (TruncateString_negative_limit "" (-1) H) ].
Defined.

Lemma TruncateString_idempotent_witness :
  ui.TruncateString "awesome directories" 10 = Returns "awesome..."
  /\ ui.TruncateString "awesome..." 10 = Returns "awesome...".
Proof.
  assert (H : ui.TruncateString "awesome directories" 10 = Returns "awesome...")
    by (vm_compute; reflexivity).
  split; [ exact H | exact (TruncateString_idempotent _ _ _ H) ].
Defined.

Lemma table_cells_fit_witness :
  nameCell Fixture.sprawling = Returns "The Exhaustive Index of Software Laun..."
  /\ categoryCell Fixture.sprawling = Returns "Marketing, Productivity, De..."
  /\ Strings.strlen (Strings.Join (Directory.Categories Fixture.gamma) ", ") <= 30
  /\ exists category : string,
      categoryCell Fixture.gamma = Returns category
      /\ Strings.strlen category <= 30
      /\ (Strings.strlen (Strings.Join (Directory.Categories Fixture.gamma) ", ") <= 30 ->
          category = Strings.Join (Directory.Categories Fixture.gamma) ", ").
Proof.
  split; [ vm_compute; reflexivity | ]. split; [ vm_compute; reflexivity | ].
  split; [ vm_compute; discriminate | ].
  exact (proj2 (table_cells_fit Fixture.gamma)).
Defined.

Lemma categoryMap_groups_witness :
  let ds := [Fixture.zeta; Fixture.loner; Fixture.gamma; Fixture.beta] in
  Directory.Categories Fixture.loner = []
  /\ export.categoryMap ds !! "Blogs" = Some [Fixture.gamma; Fixture.beta]
  /\ export.categoryMap ds !! "saas" = None
  /\ ~ In Fixture.loner
         (flat_map (fun d => repeat d (count_occ string_dec (Directory.Categories d)
                                         "Blogs")) ds).
Proof.
  cbv zeta.
  assert (H : Directory.Categories Fixture.loner = []) by reflexivity.
  split; [ exact H | ].
  split; [ exact (proj1 (categoryMap_groups
                           [Fixture.zeta; Fixture.loner; Fixture.gamma; Fixture.beta]
                           "Blogs")) | ].
  split; [ exact (proj1 (categoryMap_groups
                           [Fixture.zeta; Fixture.loner; Fixture.gamma; Fixture.beta]
                           "saas")) | ].
  exact (proj2 (proj2 (categoryMap_groups
                         [Fixture.zeta; Fixture.loner; Fixture.gamma; Fixture.beta]
                         "Blogs")) Fixture.loner H).
Defined.

Lemma upper_bound_replaces_lower_bound_witness :
  let o := FilterOptions.with_bounds FilterOptions.zero 50 90 in
  0 < FilterOptions.DRMin o
  /\ 0 < FilterOptions.DRMax o
  /\ api.params (Some o) !! "domain_rating"
     = Some [("lte." ++ Itoa (FilterOptions.DRMax o))%string]
  /\ ("lte." ++ Itoa (FilterOptions.DRMax o))%string = "lte.90".
Proof.
  cbv zeta.
  assert (H1 : 0 < FilterOptions.DRMin (FilterOptions.with_bounds FilterOptions.zero 50 90))
    by (simpl; lia).
  assert (H2 : 0 < FilterOptions.DRMax (FilterOptions.with_bounds FilterOptions.zero 50 90))
    by (simpl; lia).
  split; [ exact H1 | ]. split; [ exact H2 | ].
  split; [ exact (proj1 (upper_bound_replaces_lower_bound _) H1 H2) | ].
  vm_compute. reflexivity.
Defined.

Lemma every_request_asks_for_active_records_witness :
  "popular" <> SortMostHelpful /\ "popular" <> SortHighestDR
  /\ "popular" <> SortNewest /\ "popular" <> SortAlpha
  /\ api.order "popular" = api.order SortMostHelpful
  /\ api.params (Some (FilterOptions.with_sort FilterOptions.zero SortAlpha)) !! "order"
     = Some [api.order SortAlpha].
Proof.
  assert (H1 : "popular" <> SortMostHelpful) by discriminate.
  assert (H2 : "popular" <> SortHighestDR) by discriminate.
  assert (H3 : "popular" <> SortNewest) by discriminate.
  assert (H4 : "popular" <> SortAlpha) by discriminate.
  split; [ exact H1 | ]. split; [ exact H2 | ]. split; [ exact H3 | ].
  split; [ exact H4 | ].
  split; [ exact (proj2 (proj2 every_request_asks_for_active_records) _ H1 H2 H3 H4) | ].
  exact (proj2 (proj2 (proj1 every_request_asks_for_active_records
                         (Some (FilterOptions.with_sort FilterOptions.zero SortAlpha))))).
Defined.
